(** * LigindiWM: a reparenting window manager, embedded and verified

    The development follows [src/LigindiWM/window_manager.py].  The class
    [WindowManager] keeps a dictionary from client windows to frames and three
    drag attributes, and talks to an X server through a display connection.
    The embedding has four layers:

    - [Result]: how a Python call can end (a value, an uncaught exception, or
      a call that never returns);
    - module [Xlib]: the names the imported package binds, which decide
      whether an attribute reference such as [Xlib.X.Above] has a value;
    - module [X]: the display connection and the part of the server state the
      manager's calls read and write, with every request kept in a log;
    - the methods of [WindowManager], one definition per method, written in
      the order of the source statements. *)

From Stdlib Require Import ZArith.
From stdpp Require Import base option list gmap strings.

(** ** Outcomes of a call *)

(** The exceptions the manager's code can raise.  [BadWindow] and
    [BadDrawable] stand for the protocol errors a request with a reply raises
    when its window does not exist, [BadDataError] for the library's refusal
    to pack an event whose data has the wrong length. *)
Inductive Exn : Type :=
  | AttributeError
  | StopIteration
  | KeyError
  | AssertionError
  | BadWindow
  | BadDrawable
  | BadDataError.

(** What a call that never returns is waiting for. *)
Inductive Blocker : Type :=
  | OnLock        (* [with lock:] on a [threading.Lock] that is held *)
  | OnNextEvent.  (* [next_event()] on an empty queue *)

Inductive Result (A : Type) : Type :=
  | Ok (a : A)
  | Raise (e : Exn)
  | Blocks (b : Blocker).
Arguments Ok {A} a.
Arguments Raise {A} e.
Arguments Blocks {A} b.

#[global] Instance Result_ret : MRet Result := λ A a, Ok a.
#[global] Instance Result_bind : MBind Result := λ A B f m,
  match m with
  | Ok a => f a
  | Raise e => Raise e
  | Blocks b => Blocks b
  end.

(** Python's [obj.attr] on an attribute that may be missing. *)
Definition getattr {A} (o : option A) : Result A :=
  match o with
  | Some a => Ok a
  | None => Raise AttributeError
  end.

(** Truth value of a Python integer. *)
Definition truthy (n : Z) : bool := negb (n =? 0)%Z.

(** Window handles are resource ids; two handles are equal when their ids
    are. *)
Abbreviation Window := positive.

(** ** The imported package

    The source has [import Xlib] and reads every library name through the
    package: [Xlib.X.Mod1Mask], [Xlib.protocol.event.ClientMessage],
    [Xlib.XK_F4].  An attribute reference on a module has a value when the
    module binds the name and raises [AttributeError] when it does not, at
    the moment the reference is evaluated. *)
Module Xlib.

(** The names bound in the package itself once its display module is
    loaded: its version data and its submodules.  The keysyms ([XK_F4],
    [XK_Tab], ...) are bound in the submodule [XK], not here. *)
Definition package_names : list string :=
  ["__all__"; "__version__"; "__version_extra__"; "__version_string__";
   "X"; "XK"; "Xatom"; "Xcursorfont"; "Xutil"; "display"; "error"; "ext";
   "keysymdef"; "protocol"; "rdb"; "support"; "threaded"; "xauth";
   "xobject"]%string.

(** The names bound in the module [Xlib.X]: the constants of the protocol,
    all of them integers.  The module defines no function. *)
Definition X_names : list string :=
  ["NONE"; "ParentRelative"; "CopyFromParent"; "PointerWindow";
   "InputFocus"; "PointerRoot"; "AnyPropertyType"; "AnyKey"; "AnyButton";
   "AllTemporary"; "CurrentTime"; "NoSymbol"; "NoEventMask"; "KeyPressMask";
   "KeyReleaseMask"; "ButtonPressMask"; "ButtonReleaseMask";
   "EnterWindowMask"; "LeaveWindowMask"; "PointerMotionMask";
   "PointerMotionHintMask"; "Button1MotionMask"; "Button2MotionMask";
   "Button3MotionMask"; "Button4MotionMask"; "Button5MotionMask";
   "ButtonMotionMask"; "KeymapStateMask"; "ExposureMask";
   "VisibilityChangeMask"; "StructureNotifyMask"; "ResizeRedirectMask";
   "SubstructureNotifyMask"; "SubstructureRedirectMask"; "FocusChangeMask";
   "PropertyChangeMask"; "ColormapChangeMask"; "OwnerGrabButtonMask";
   "KeyPress"; "KeyRelease"; "ButtonPress"; "ButtonRelease"; "MotionNotify";
   "EnterNotify"; "LeaveNotify"; "FocusIn"; "FocusOut"; "KeymapNotify";
   "Expose"; "GraphicsExpose"; "NoExpose"; "VisibilityNotify";
   "CreateNotify"; "DestroyNotify"; "UnmapNotify"; "MapNotify";
   "MapRequest"; "ReparentNotify"; "ConfigureNotify"; "ConfigureRequest";
   "GravityNotify"; "ResizeRequest"; "CirculateNotify"; "CirculateRequest";
   "PropertyNotify"; "SelectionClear"; "SelectionRequest";
   "SelectionNotify"; "ColormapNotify"; "ClientMessage"; "MappingNotify";
   "LASTEvent"; "ShiftMapIndex"; "LockMapIndex"; "ControlMapIndex";
   "Mod1MapIndex"; "Mod2MapIndex"; "Mod3MapIndex"; "Mod4MapIndex";
   "Mod5MapIndex"; "ShiftMask"; "LockMask"; "ControlMask"; "Mod1Mask";
   "Mod2Mask"; "Mod3Mask"; "Mod4Mask"; "Mod5Mask"; "Button1Mask";
   "Button2Mask"; "Button3Mask"; "Button4Mask"; "Button5Mask";
   "AnyModifier"; "Button1"; "Button2"; "Button3"; "Button4"; "Button5";
   "NotifyNormal"; "NotifyGrab"; "NotifyUngrab"; "NotifyWhileGrabbed";
   "NotifyHint"; "NotifyAncestor"; "NotifyVirtual"; "NotifyInferior";
   "NotifyNonlinear"; "NotifyNonlinearVirtual"; "NotifyPointer";
   "NotifyPointerRoot"; "NotifyDetailNone"; "VisibilityUnobscured";
   "VisibilityPartiallyObscured"; "VisibilityFullyObscured"; "PlaceOnTop";
   "PlaceOnBottom"; "FamilyInternet"; "FamilyDECnet"; "FamilyChaos";
   "FamilyServerInterpreted"; "FamilyInternetV6"; "PropertyNewValue";
   "PropertyDelete"; "ColormapUninstalled"; "ColormapInstalled";
   "GrabModeSync"; "GrabModeAsync"; "GrabSuccess"; "AlreadyGrabbed";
   "GrabInvalidTime"; "GrabNotViewable"; "GrabFrozen"; "AsyncPointer";
   "SyncPointer"; "ReplayPointer"; "AsyncKeyboard"; "SyncKeyboard";
   "ReplayKeyboard"; "AsyncBoth"; "SyncBoth"; "RevertToNone";
   "RevertToPointerRoot"; "RevertToParent"; "Success"; "BadRequest";
   "BadValue"; "BadWindow"; "BadPixmap"; "BadAtom"; "BadCursor"; "BadFont";
   "BadMatch"; "BadDrawable"; "BadAccess"; "BadAlloc"; "BadColor"; "BadGC";
   "BadIDChoice"; "BadName"; "BadLength"; "BadImplementation";
   "FirstExtensionError"; "LastExtensionError"; "InputOutput"; "InputOnly";
   "CWBackPixmap"; "CWBackPixel"; "CWBorderPixmap"; "CWBorderPixel";
   "CWBitGravity"; "CWWinGravity"; "CWBackingStore"; "CWBackingPlanes";
   "CWBackingPixel"; "CWOverrideRedirect"; "CWSaveUnder"; "CWEventMask";
   "CWDontPropagate"; "CWColormap"; "CWCursor"; "CWX"; "CWY"; "CWWidth";
   "CWHeight"; "CWBorderWidth"; "CWSibling"; "CWStackMode"; "ForgetGravity";
   "NorthWestGravity"; "NorthGravity"; "NorthEastGravity"; "WestGravity";
   "CenterGravity"; "EastGravity"; "SouthWestGravity"; "SouthGravity";
   "SouthEastGravity"; "StaticGravity"; "UnmapGravity"; "NotUseful";
   "WhenMapped"; "Always"; "IsUnmapped"; "IsUnviewable"; "IsViewable";
   "SetModeInsert"; "SetModeDelete"; "DestroyAll"; "RetainPermanent";
   "RetainTemporary"; "Above"; "Below"; "TopIf"; "BottomIf"; "Opposite";
   "RaiseLowest"; "LowerHighest"; "PropModeReplace"; "PropModePrepend";
   "PropModeAppend"; "GXclear"; "GXand"; "GXandReverse"; "GXcopy";
   "GXandInverted"; "GXnoop"; "GXxor"; "GXor"; "GXnor"; "GXequiv";
   "GXinvert"; "GXorReverse"; "GXcopyInverted"; "GXorInverted"; "GXnand";
   "GXset"; "LineSolid"; "LineOnOffDash"; "LineDoubleDash"; "CapNotLast";
   "CapButt"; "CapRound"; "CapProjecting"; "JoinMiter"; "JoinRound";
   "JoinBevel"; "FillSolid"; "FillTiled"; "FillStippled";
   "FillOpaqueStippled"; "EvenOddRule"; "WindingRule"; "ClipByChildren";
   "IncludeInferiors"; "Unsorted"; "YSorted"; "YXSorted"; "YXBanded";
   "CoordModeOrigin"; "CoordModePrevious"; "Complex"; "Nonconvex"; "Convex";
   "ArcChord"; "ArcPieSlice"; "GCFunction"; "GCPlaneMask"; "GCForeground";
   "GCBackground"; "GCLineWidth"; "GCLineStyle"; "GCCapStyle";
   "GCJoinStyle"; "GCFillStyle"; "GCFillRule"; "GCTile"; "GCStipple";
   "GCTileStipXOrigin"; "GCTileStipYOrigin"; "GCFont"; "GCSubwindowMode";
   "GCGraphicsExposures"; "GCClipXOrigin"; "GCClipYOrigin"; "GCClipMask";
   "GCDashOffset"; "GCDashList"; "GCArcMode"; "GCLastBit";
   "FontLeftToRight"; "FontRightToLeft"; "FontChange"; "XYBitmap";
   "XYPixmap"; "ZPixmap"; "AllocNone"; "AllocAll"; "DoRed"; "DoGreen";
   "DoBlue"; "CursorShape"; "TileShape"; "StippleShape";
   "AutoRepeatModeOff"; "AutoRepeatModeOn"; "AutoRepeatModeDefault";
   "LedModeOff"; "LedModeOn"; "KBKeyClickPercent"; "KBBellPercent";
   "KBBellPitch"; "KBBellDuration"; "KBLed"; "KBLedMode"; "KBKey";
   "KBAutoRepeatMode"; "MappingSuccess"; "MappingBusy"; "MappingFailed";
   "MappingModifier"; "MappingKeyboard"; "MappingPointer";
   "DontPreferBlanking"; "PreferBlanking"; "DefaultBlanking";
   "DisableScreenSaver"; "DisableScreenInterval"; "DontAllowExposures";
   "AllowExposures"; "DefaultExposures"; "ScreenSaverReset";
   "ScreenSaverActive"; "HostInsert"; "HostDelete"; "EnableAccess";
   "DisableAccess"; "StaticGray"; "GrayScale"; "StaticColor"; "PseudoColor";
   "TrueColor"; "DirectColor"; "LSBFirst"; "MSBFirst"]%string.

(** [module.name] *)
Definition read (names : list string) (name : string) : Result unit :=
  if bool_decide (name ∈ names) then Ok () else Raise AttributeError.

End Xlib.

(** ** Insertion-ordered dictionaries

    [self.clients] is a Python [dict]: iteration follows insertion order,
    assigning to a present key keeps its place, and a new key goes last. *)
Module Dict.
Section Operations.
Context {V : Type}.

Fixpoint get (k : Window) (d : list (Window * V)) : option V :=
  match d with
  | [] => None
  | (k', v) :: d' => if decide (k' = k) then Some v else get k d'
  end.

(** [k in d] *)
Definition mem (k : Window) (d : list (Window * V)) : bool :=
  bool_decide (is_Some (get k d)).

(** [d[k] = v] *)
Fixpoint set (k : Window) (v : V) (d : list (Window * V)) : list (Window * V) :=
  match d with
  | [] => [(k, v)]
  | (k', v') :: d' =>
      if decide (k' = k) then (k', v) :: d' else (k', v') :: set k v d'
  end.

(** [del d[k]]: a dictionary holds a key once, and its entry goes *)
Definition del (k : Window) (d : list (Window * V)) : list (Window * V) :=
  filter (λ kv, kv.1 ≠ k) d.

(** [iter(d)]: the keys in insertion order *)
Definition keys (d : list (Window * V)) : list Window := d.*1.
End Operations.
End Dict.

(** ** The display connection and the X server *)
Module X.

(** *** Protocol constants, with the values they have in [Xlib.X], and the
    two keysyms with the values they have in [Xlib.XK] *)
Definition NONE : Z := 0.
Definition CurrentTime : Z := 0.
Definition Above : Z := 0.
Definition GrabModeAsync : Z := 1.
Definition RevertToPointerRoot : Z := 1.
Definition IsUnmapped : Z := 0.
Definition IsUnviewable : Z := 1.
Definition IsViewable : Z := 2.
Definition BadAccess : Z := 10.
Definition BadWindowCode : Z := 3.
Definition Mod1Mask : Z := 8.
Definition Button1Mask : Z := 256.
Definition Button3Mask : Z := 1024.
Definition SubstructureNotifyMask : Z := 524288.
Definition SubstructureRedirectMask : Z := 1048576.
Definition XK_F4 : Z := 65473.
Definition XK_Tab : Z := 65289.

(** *** Windows as the server holds them *)
Record Win : Type := {
  win_parent : option Window;      (* [None] for the root *)
  win_x : Z;
  win_y : Z;
  win_width : Z;
  win_height : Z;
  win_border_width : Z;
  win_depth : Z;
  win_override_redirect : bool;
  win_mapped : bool;               (* the window's own map flag *)
  win_event_mask : Z;
  win_protocols : list Z;          (* atoms of its WM_PROTOCOLS property *)
}.

(** The reply of [get_attributes], with the fields [Frame] reads. *)
Record Attrs : Type := {
  a_x : Z;
  a_y : Z;
  a_width : Z;
  a_height : Z;
  a_override_redirect : bool;
  a_map_state : Z;
}.

(** The keyword arguments of [configure]; an absent keyword is [None]. *)
Record Changes : Type := {
  c_x : option Z;
  c_y : option Z;
  c_width : option Z;
  c_height : option Z;
  c_border_width : option Z;
  c_sibling : option (option Window);   (* [Some None] is [X.NONE] *)
  c_stack_mode : option Z;
}.

Definition no_changes : Changes :=
  {| c_x := None; c_y := None; c_width := None; c_height := None;
     c_border_width := None; c_sibling := None; c_stack_mode := None |}.

(** *** Requests without a reply, as the manager issues them *)
Inductive Request : Type :=
  | CreateSimpleWindow (wid parent : Window)
      (x y width height border_width border background : Z)
  | ChangeAttributes (w : Window) (event_mask : Z)
  | AddToSaveSet (w : Window)
  | RemoveFromSaveSet (w : Window)
  | Reparent (w parent : Window) (x y : Z)
  | Map (w : Window)
  | Unmap (w : Window)
  | Destroy (w : Window)
  | Configure (w : Window) (changes : Changes)
  | GrabButton (w : Window) (button modifiers owner_events : Z)
      (pointer_mode keyboard_mode confine_to cursor : Z)
  | GrabKey (w : Window) (keycode modifiers owner_events : Z)
      (pointer_mode keyboard_mode : Z)
  | SetInputFocus (w : Window) (revert_to time : Z)
  | SendEvent (w : Window) (client_type format : Z) (data : list Z)
  | KillClient (w : Window)
  | GrabServer
  | UngrabServer.

(** An error event, as an error handler receives it. *)
Record XError : Type := {
  error_code : Z;
  request_code : Z;
  resourceid : Z;
}.

Inductive ErrorHandler : Type :=
  | DefaultHandler
  | HandlerOnWMDetected
  | HandlerOnXError.

(** *** Events

    One constructor per kind the dispatcher names, each with the fields the
    handlers read under the names they read them by; [OtherEvent] is any
    other kind, known by its type code only. *)
Inductive Event : Type :=
  | KeyPress (window : Window) (x_root y_root state keycode : Z)
  | KeyRelease (window : Window) (x_root y_root state keycode : Z)
  | ButtonPress (window : Window) (x_root y_root state button : Z)
  | ButtonRelease (window : Window) (x_root y_root state button : Z)
  | MotionNotify (window : Window) (x_root y_root state : Z)
  | CreateNotify (parent window : Window)
  | DestroyNotify (event window : Window)
  | UnmapNotify (event window : Window)
  | MapNotify (event window : Window)
  | MapRequest (parent window : Window)
  | ReparentNotify (event window parent : Window)
  | ConfigureNotify (event window : Window)
  | ConfigureRequest (parent window : Window)
      (x y width height border_width : Z) (above : option Window)
      (detail value_mask : Z)
  | OtherEvent (type : Z).

(** *** Server state, seen through one connection *)
Record Server : Type := {
  screen_root : Window;
  windows : gmap Window Win;
  save_set : gset Window;
  input_focus : option Window;
  redirect_taken : gset Window;   (* SubstructureRedirect held by another client *)
  keymap : Z → Z;                 (* keysym to keycode *)
  error_handler : ErrorHandler;
  errors : list XError;           (* errors not yet delivered to the handler *)
  pending : list Event;           (* events queued on the connection *)
  log : list Request;             (* requests received, oldest first *)
}.

Definition with_error_handler (h : ErrorHandler) (s : Server) : Server :=
  {| screen_root := screen_root s; windows := windows s; save_set := save_set s;
     input_focus := input_focus s; redirect_taken := redirect_taken s;
     keymap := keymap s; error_handler := h;
     errors := errors s; pending := pending s; log := log s |}.

Definition with_errors (es : list XError) (s : Server) : Server :=
  {| screen_root := screen_root s; windows := windows s; save_set := save_set s;
     input_focus := input_focus s; redirect_taken := redirect_taken s;
     keymap := keymap s; error_handler := error_handler s;
     errors := es; pending := pending s; log := log s |}.

Definition with_pending (q : list Event) (s : Server) : Server :=
  {| screen_root := screen_root s; windows := windows s; save_set := save_set s;
     input_focus := input_focus s; redirect_taken := redirect_taken s;
     keymap := keymap s; error_handler := error_handler s;
     errors := errors s; pending := q; log := log s |}.

(** *** What each request does to a window *)

Definition new_window (p : Window) (x y width height border_width : Z) : Win :=
  {| win_parent := Some p; win_x := x; win_y := y; win_width := width;
     win_height := height; win_border_width := border_width; win_depth := 24;
     win_override_redirect := false; win_mapped := false;
     win_event_mask := 0; win_protocols := [] |}.

Definition reparent_win (p : Window) (x y : Z) (a : Win) : Win :=
  {| win_parent := Some p; win_x := x; win_y := y; win_width := win_width a;
     win_height := win_height a; win_border_width := win_border_width a;
     win_depth := win_depth a;
     win_override_redirect := win_override_redirect a;
     win_mapped := win_mapped a; win_event_mask := win_event_mask a;
     win_protocols := win_protocols a |}.

Definition set_mapped (b : bool) (a : Win) : Win :=
  {| win_parent := win_parent a; win_x := win_x a; win_y := win_y a;
     win_width := win_width a; win_height := win_height a;
     win_border_width := win_border_width a; win_depth := win_depth a;
     win_override_redirect := win_override_redirect a;
     win_mapped := b; win_event_mask := win_event_mask a;
     win_protocols := win_protocols a |}.

Definition set_event_mask (m : Z) (a : Win) : Win :=
  {| win_parent := win_parent a; win_x := win_x a; win_y := win_y a;
     win_width := win_width a; win_height := win_height a;
     win_border_width := win_border_width a; win_depth := win_depth a;
     win_override_redirect := win_override_redirect a;
     win_mapped := win_mapped a; win_event_mask := m;
     win_protocols := win_protocols a |}.

(** [configure]: a keyword that is given replaces the field, the others
    keep theirs.  Sibling and stack mode change the stacking order, which
    for three of the five stack modes depends on which windows overlap; the
    order is not part of this state, the request log keeps the two values. *)
Definition configure_win (c : Changes) (a : Win) : Win :=
  {| win_parent := win_parent a;
     win_x := default (win_x a) (c_x c);
     win_y := default (win_y a) (c_y c);
     win_width := default (win_width a) (c_width c);
     win_height := default (win_height a) (c_height c);
     win_border_width := default (win_border_width a) (c_border_width c);
     win_depth := win_depth a;
     win_override_redirect := win_override_redirect a;
     win_mapped := win_mapped a; win_event_mask := win_event_mask a;
     win_protocols := win_protocols a |}.

(** [inferior fuel ws top k]: [top] is a proper ancestor of [k]. *)
Fixpoint inferior (fuel : nat) (ws : gmap Window Win) (top k : Window) : bool :=
  match fuel with
  | O => false
  | S fuel' =>
      match ws !! k with
      | Some a =>
          match win_parent a with
          | Some p => bool_decide (p = top) || inferior fuel' ws top p
          | None => false
          end
      | None => false
      end
  end.

(** Destroying a window destroys its inferiors with it. *)
Definition destroy_win (w : Window) (ws : gmap Window Win) : gmap Window Win :=
  filter (λ kv, kv.1 ≠ w ∧ inferior (size ws) ws w kv.1 = false) ws.

(** A window is viewable when it and all its ancestors are mapped. *)
Fixpoint ancestors_mapped (fuel : nat) (ws : gmap Window Win)
    (p : option Window) : bool :=
  match p, fuel with
  | None, _ => true
  | Some _, O => false
  | Some q, S fuel' =>
      match ws !! q with
      | Some a => win_mapped a && ancestors_mapped fuel' ws (win_parent a)
      | None => false
      end
  end.

Definition map_state (ws : gmap Window Win) (a : Win) : Z :=
  if win_mapped a then
    if ancestors_mapped (size ws) ws (win_parent a) then IsViewable
    else IsUnviewable
  else IsUnmapped.

(** *** Requests

    A request that names a window the server does not have changes
    nothing.  Selecting SubstructureRedirect on a window where another
    client holds it is refused with a BadAccess error, queued for the
    connection's error handler.  KillClient closes down the client that
    created the window: the window goes, with its inferiors (which other
    windows that client created is not part of this state). *)

Definition refused (m : Z) (w : Window) (s : Server) : Prop :=
  Z.land m SubstructureRedirectMask ≠ 0%Z ∧ w ∈ redirect_taken s.

#[global] Instance refused_dec m w s : Decision (refused m w s) :=
  and_dec _ _.

Definition windows_after (r : Request) (s : Server) : gmap Window Win :=
  match r with
  | CreateSimpleWindow wid p x y width height bw _ _ =>
      <[wid := new_window p x y width height bw]> (windows s)
  | ChangeAttributes w m =>
      if decide (refused m w s) then windows s
      else alter (set_event_mask m) w (windows s)
  | Reparent w p x y => alter (reparent_win p x y) w (windows s)
  | Map w => alter (set_mapped true) w (windows s)
  | Unmap w => alter (set_mapped false) w (windows s)
  | Destroy w => destroy_win w (windows s)
  | Configure w c => alter (configure_win c) w (windows s)
  | KillClient w => destroy_win w (windows s)
  | _ => windows s
  end.

Definition save_set_after (r : Request) (s : Server) : gset Window :=
  match r with
  | AddToSaveSet w => save_set s ∪ {[w]}
  | RemoveFromSaveSet w => save_set s ∖ {[w]}
  | _ => save_set s
  end.

Definition input_focus_after (r : Request) (s : Server) : option Window :=
  match r with
  | SetInputFocus w _ _ => Some w
  | _ => input_focus s
  end.

Definition errors_after (r : Request) (s : Server) : list XError :=
  match r with
  | ChangeAttributes w m =>
      if decide (refused m w s)
      then errors s ++ [{| error_code := BadAccess; request_code := 2;
                           resourceid := Z.pos w |}]
      else errors s
  | _ => errors s
  end.

Definition send (r : Request) (s : Server) : Server :=
  {| screen_root := screen_root s;
     windows := windows_after r s;
     save_set := save_set_after r s;
     input_focus := input_focus_after r s;
     redirect_taken := redirect_taken s;
     keymap := keymap s;
     error_handler := error_handler s;
     errors := errors_after r s;
     pending := pending s;
     log := log s ++ [r] |}.

(** [create_simple_window]: the new window gets an id no window has. *)
Definition fresh_id (s : Server) : Window :=
  fresh (dom (windows s) ∪ {[screen_root s]}).

Definition create_simple_window (p : Window)
    (x y width height border_width border background : Z) (s : Server)
    : Window * Server :=
  let wid := fresh_id s in
  (wid, send (CreateSimpleWindow wid p x y width height border_width
                border background) s).

(** *** Requests with a reply *)

Definition get_attributes (w : Window) (s : Server) : Result Attrs :=
  match windows s !! w with
  | Some a =>
      Ok {| a_x := win_x a; a_y := win_y a; a_width := win_width a;
            a_height := win_height a;
            a_override_redirect := win_override_redirect a;
            a_map_state := map_state (windows s) a |}
  | None => Raise BadWindow
  end.

(** The reply of [get_geometry], a tuple of seven. *)
Definition get_geometry (w : Window) (s : Server)
    : Result (Window * Z * Z * Z * Z * Z * Z) :=
  match windows s !! w with
  | Some a =>
      Ok (screen_root s, win_x a, win_y a, win_width a, win_height a,
          win_border_width a, win_depth a)
  | None => Raise BadDrawable
  end.

Definition get_wm_protocols (w : Window) (s : Server) : Result (list Z) :=
  match windows s !! w with
  | Some a => Ok (win_protocols a)
  | None => Raise BadWindow
  end.

(** [query_tree]: root, parent and children of a window. *)
Definition query_tree (w : Window) (s : Server)
    : Result (Window * option Window * list Window) :=
  match windows s !! w with
  | Some a =>
      Ok (screen_root s, win_parent a,
          (map_to_list (filter (λ kv, win_parent kv.2 = Some w) (windows s))).*1)
  | None => Raise BadWindow
  end.

Definition keysym_to_keycode (keysym : Z) (s : Server) : Z := keymap s keysym.

(** [xfree(data)] releases memory on the client's side; the server is not
    told.  The display is taken to offer every method the source calls on
    it. *)
Definition xfree (data : list Window) (s : Server) : Server := s.

(** [Xlib.protocol.event.ClientMessage(window=, client_type=,
    data=(format, items))]: the constructor packs the event at once.  The
    items, of 8, 16 or 32 bits each, are laid out and padded to a multiple
    of four bytes; a client message carries 20 bytes of data, and items
    that come to another length raise [BadDataError]. *)
Definition ClientMessage (window : Window) (client_type : Z)
    (data : Z * list Z) : Result Request :=
  let '(format, items) := data in
  let packed := (Z.of_nat (length items) * (format / 8))%Z in
  let padded := (packed + (4 - packed mod 4) mod 4)%Z in
  if bool_decide (format ∈ [8; 16; 32]%Z) && (padded =? 20)%Z
  then Ok (SendEvent window client_type format items)
  else Raise BadDataError.

(** *** The event queue *)

Definition check_pending (s : Server) : bool :=
  match pending s with
  | [] => false
  | _ :: _ => true
  end.

Definition next_event (s : Server) : Result (Event * Server) :=
  match pending s with
  | [] => Blocks OnNextEvent
  | e :: q => Ok (e, with_pending q s)
  end.

(** Event type codes of [Xlib.X]. *)
Module Code.
Definition KeyPress : Z := 2.
Definition KeyRelease : Z := 3.
Definition ButtonPress : Z := 4.
Definition ButtonRelease : Z := 5.
Definition MotionNotify : Z := 6.
Definition CreateNotify : Z := 16.
Definition DestroyNotify : Z := 17.
Definition UnmapNotify : Z := 18.
Definition MapNotify : Z := 19.
Definition MapRequest : Z := 20.
Definition ReparentNotify : Z := 21.
Definition ConfigureNotify : Z := 22.
Definition ConfigureRequest : Z := 23.
End Code.

(** [e.type] *)
Definition type (e : Event) : Z :=
  match e with
  | KeyPress _ _ _ _ _ => Code.KeyPress
  | KeyRelease _ _ _ _ _ => Code.KeyRelease
  | ButtonPress _ _ _ _ _ => Code.ButtonPress
  | ButtonRelease _ _ _ _ _ => Code.ButtonRelease
  | MotionNotify _ _ _ _ => Code.MotionNotify
  | CreateNotify _ _ => Code.CreateNotify
  | DestroyNotify _ _ => Code.DestroyNotify
  | UnmapNotify _ _ => Code.UnmapNotify
  | MapNotify _ _ => Code.MapNotify
  | MapRequest _ _ => Code.MapRequest
  | ReparentNotify _ _ _ => Code.ReparentNotify
  | ConfigureNotify _ _ => Code.ConfigureNotify
  | ConfigureRequest _ _ _ _ _ _ _ _ _ _ => Code.ConfigureRequest
  | OtherEvent t => t
  end.

End X.

(** ** Attributes of an event record

    The handlers read attributes by name from whatever event they are handed;
    an attribute the event's kind does not carry raises [AttributeError]. *)
Module Attr.
Import X.

Definition window (e : Event) : option Window :=
  match e with
  | KeyPress w _ _ _ _ | KeyRelease w _ _ _ _ | ButtonPress w _ _ _ _
  | ButtonRelease w _ _ _ _ | MotionNotify w _ _ _ | CreateNotify _ w
  | DestroyNotify _ w | UnmapNotify _ w | MapNotify _ w | MapRequest _ w
  | ReparentNotify _ w _ | ConfigureNotify _ w
  | ConfigureRequest _ w _ _ _ _ _ _ _ _ => Some w
  | OtherEvent _ => None
  end.

Definition event (e : Event) : option Window :=
  match e with
  | DestroyNotify ev _ | UnmapNotify ev _ | MapNotify ev _
  | ReparentNotify ev _ _ | ConfigureNotify ev _ => Some ev
  | _ => None
  end.

Definition x_root (e : Event) : option Z :=
  match e with
  | KeyPress _ xr _ _ _ | KeyRelease _ xr _ _ _ | ButtonPress _ xr _ _ _
  | ButtonRelease _ xr _ _ _ | MotionNotify _ xr _ _ => Some xr
  | _ => None
  end.

Definition y_root (e : Event) : option Z :=
  match e with
  | KeyPress _ _ yr _ _ | KeyRelease _ _ yr _ _ | ButtonPress _ _ yr _ _
  | ButtonRelease _ _ yr _ _ | MotionNotify _ _ yr _ => Some yr
  | _ => None
  end.

Definition state (e : Event) : option Z :=
  match e with
  | KeyPress _ _ _ st _ | KeyRelease _ _ _ st _ | ButtonPress _ _ _ st _
  | ButtonRelease _ _ _ st _ | MotionNotify _ _ _ st => Some st
  | _ => None
  end.

Definition keycode (e : Event) : option Z :=
  match e with
  | KeyPress _ _ _ _ kc | KeyRelease _ _ _ _ kc => Some kc
  | _ => None
  end.

Definition x (e : Event) : option Z :=
  match e with ConfigureRequest _ _ v _ _ _ _ _ _ _ => Some v | _ => None end.
Definition y (e : Event) : option Z :=
  match e with ConfigureRequest _ _ _ v _ _ _ _ _ _ => Some v | _ => None end.
Definition width (e : Event) : option Z :=
  match e with ConfigureRequest _ _ _ _ v _ _ _ _ _ => Some v | _ => None end.
Definition height (e : Event) : option Z :=
  match e with ConfigureRequest _ _ _ _ _ v _ _ _ _ => Some v | _ => None end.
Definition border_width (e : Event) : option Z :=
  match e with ConfigureRequest _ _ _ _ _ _ v _ _ _ => Some v | _ => None end.
Definition above (e : Event) : option (option Window) :=
  match e with ConfigureRequest _ _ _ _ _ _ _ v _ _ => Some v | _ => None end.
Definition detail (e : Event) : option Z :=
  match e with ConfigureRequest _ _ _ _ _ _ _ _ v _ => Some v | _ => None end.
End Attr.

(** ** The window manager *)

(** The state of a [WindowManager] object, with the two class attributes
    [wm_detected] and [wm_detected_mutex].  The three drag attributes are not
    assigned by [__init__]; each is [None] until [OnButtonPress] assigns it.
    [self.root] is the root of the display's screen. *)
Record WindowManager : Type := {
  display : X.Server;
  WM_PROTOCOLS : Z;
  WM_DELETE_WINDOW : Z;
  clients : list (Window * Window);
  drag_start_pos : option (Z * Z);
  drag_start_frame_pos : option (Z * Z);
  drag_start_frame_size : option (Z * Z);
  wm_detected : bool;
  wm_detected_mutex : bool;           (* [true] while the lock is held *)
}.

Definition root (self : WindowManager) : Window := X.screen_root (display self).

Definition with_display (d : X.Server) (self : WindowManager) : WindowManager :=
  {| display := d; WM_PROTOCOLS := WM_PROTOCOLS self;
     WM_DELETE_WINDOW := WM_DELETE_WINDOW self; clients := clients self;
     drag_start_pos := drag_start_pos self;
     drag_start_frame_pos := drag_start_frame_pos self;
     drag_start_frame_size := drag_start_frame_size self;
     wm_detected := wm_detected self;
     wm_detected_mutex := wm_detected_mutex self |}.

Definition with_clients (c : list (Window * Window)) (self : WindowManager)
    : WindowManager :=
  {| display := display self; WM_PROTOCOLS := WM_PROTOCOLS self;
     WM_DELETE_WINDOW := WM_DELETE_WINDOW self; clients := c;
     drag_start_pos := drag_start_pos self;
     drag_start_frame_pos := drag_start_frame_pos self;
     drag_start_frame_size := drag_start_frame_size self;
     wm_detected := wm_detected self;
     wm_detected_mutex := wm_detected_mutex self |}.

Definition with_drag_start_pos (p : Z * Z) (self : WindowManager) : WindowManager :=
  {| display := display self; WM_PROTOCOLS := WM_PROTOCOLS self;
     WM_DELETE_WINDOW := WM_DELETE_WINDOW self; clients := clients self;
     drag_start_pos := Some p;
     drag_start_frame_pos := drag_start_frame_pos self;
     drag_start_frame_size := drag_start_frame_size self;
     wm_detected := wm_detected self;
     wm_detected_mutex := wm_detected_mutex self |}.

Definition with_drag_start_frame_pos (p : Z * Z) (self : WindowManager)
    : WindowManager :=
  {| display := display self; WM_PROTOCOLS := WM_PROTOCOLS self;
     WM_DELETE_WINDOW := WM_DELETE_WINDOW self; clients := clients self;
     drag_start_pos := drag_start_pos self;
     drag_start_frame_pos := Some p;
     drag_start_frame_size := drag_start_frame_size self;
     wm_detected := wm_detected self;
     wm_detected_mutex := wm_detected_mutex self |}.

Definition with_drag_start_frame_size (p : Z * Z) (self : WindowManager)
    : WindowManager :=
  {| display := display self; WM_PROTOCOLS := WM_PROTOCOLS self;
     WM_DELETE_WINDOW := WM_DELETE_WINDOW self; clients := clients self;
     drag_start_pos := drag_start_pos self;
     drag_start_frame_pos := drag_start_frame_pos self;
     drag_start_frame_size := Some p;
     wm_detected := wm_detected self;
     wm_detected_mutex := wm_detected_mutex self |}.

Definition with_wm_detected (b : bool) (self : WindowManager) : WindowManager :=
  {| display := display self; WM_PROTOCOLS := WM_PROTOCOLS self;
     WM_DELETE_WINDOW := WM_DELETE_WINDOW self; clients := clients self;
     drag_start_pos := drag_start_pos self;
     drag_start_frame_pos := drag_start_frame_pos self;
     drag_start_frame_size := drag_start_frame_size self;
     wm_detected := b;
     wm_detected_mutex := wm_detected_mutex self |}.

Definition with_mutex (b : bool) (self : WindowManager) : WindowManager :=
  {| display := display self; WM_PROTOCOLS := WM_PROTOCOLS self;
     WM_DELETE_WINDOW := WM_DELETE_WINDOW self; clients := clients self;
     drag_start_pos := drag_start_pos self;
     drag_start_frame_pos := drag_start_frame_pos self;
     drag_start_frame_size := drag_start_frame_size self;
     wm_detected := wm_detected self;
     wm_detected_mutex := b |}.

(** Issue one request on [self.display]. *)
Definition request (r : X.Request) (self : WindowManager) : WindowManager :=
  with_display (X.send r (display self)) self.

(** [self.clients[w]] *)
Definition subscript (w : Window) (self : WindowManager) : Result Window :=
  match Dict.get w (clients self) with
  | Some frame => Ok frame
  | None => Raise KeyError
  end.

(** [w in self.clients], the registry's Contains *)
Definition Contains (w : Window) (self : WindowManager) : bool :=
  Dict.mem w (clients self).

(** *** Frame *)

Definition BORDER_WIDTH : Z := 3.
Definition BORDER_COLOR : Z := 16711680.   (* 0xff0000 *)
Definition BG_COLOR : Z := 255.            (* 0x0000ff *)

Definition Frame (w : Window) (was_created_before_window_manager : bool)
    (self : WindowManager) : Result WindowManager :=
  (* We shouldn't be framing windows we've already framed. *)
  if Contains w self then Ok self else
  (* 1. Retrieve attributes of window to frame. *)
  x_window_attrs ← X.get_attributes w (display self);
  (* 2. A window created before the manager started is framed only if it is
     visible and doesn't set override_redirect. *)
  if was_created_before_window_manager
     && (X.a_override_redirect x_window_attrs
         || negb (X.a_map_state x_window_attrs =? X.IsViewable)%Z)
  then Ok self else
  (* 3. Create frame.  The call starts by evaluating
     [Xlib.X.create_simple_window]. *)
  _ ← Xlib.read Xlib.X_names "create_simple_window";
  let '(frame, d) :=
    X.create_simple_window (root self)
      (X.a_x x_window_attrs) (X.a_y x_window_attrs)
      (X.a_width x_window_attrs) (X.a_height x_window_attrs)
      BORDER_WIDTH BORDER_COLOR BG_COLOR (display self) in
  let self := with_display d self in
  (* 4. Select events on frame. *)
  let self := request (X.ChangeAttributes frame
                (Z.lor X.SubstructureRedirectMask X.SubstructureNotifyMask)) self in
  (* 5. Add client to save set. *)
  let self := request (X.AddToSaveSet w) self in
  (* 6. Reparent client window. *)
  let self := request (X.Reparent w frame 0 0) self in
  (* 7. Map frame. *)
  let self := request (X.Map frame) self in
  (* 8. Save frame handle. *)
  let self := with_clients (Dict.set w frame (clients self)) self in
  (* 9. Grab universal window management actions on client window. *)
  let self := request (X.GrabButton w 1 X.Mod1Mask 1 X.GrabModeAsync
                         X.GrabModeAsync X.NONE X.NONE) self in
  let self := request (X.GrabButton w 3 X.Mod1Mask 1 X.GrabModeAsync
                         X.GrabModeAsync X.NONE X.NONE) self in
  _ ← Xlib.read Xlib.package_names "XK_F4";
  let self := request (X.GrabKey w (X.keysym_to_keycode X.XK_F4 (display self))
                         X.Mod1Mask 1 X.GrabModeAsync X.GrabModeAsync) self in
  _ ← Xlib.read Xlib.package_names "XK_Tab";
  let self := request (X.GrabKey w (X.keysym_to_keycode X.XK_Tab (display self))
                         X.Mod1Mask 1 X.GrabModeAsync X.GrabModeAsync) self in
  Ok self.

(** *** Unframe *)

Definition Unframe (w : Window) (self : WindowManager) : Result WindowManager :=
  if negb (Contains w self) then Ok self else
  (* We reverse the steps taken in Frame(). *)
  frame ← subscript w self;
  (* 1. Unmap frame. *)
  let self := request (X.Unmap frame) self in
  (* 2. Reparent client window. *)
  let self := request (X.Reparent w (root self) 0 0) self in
  (* 3. Remove client window from save set. *)
  let self := request (X.RemoveFromSaveSet w) self in
  (* 4. Destroy frame. *)
  let self := request (X.Destroy frame) self in
  (* 5. Drop reference to frame handle. *)
  let self := with_clients (Dict.del w (clients self)) self in
  Ok self.

(** *** Keyword arguments of the [configure] calls *)

(** [configure(x=..., y=...)] and [configure(width=..., height=...)] *)
Definition move_to (x y : Z) : X.Changes :=
  {| X.c_x := Some x; X.c_y := Some y; X.c_width := None; X.c_height := None;
     X.c_border_width := None; X.c_sibling := None; X.c_stack_mode := None |}.

Definition resize_to (width height : Z) : X.Changes :=
  {| X.c_x := None; X.c_y := None; X.c_width := Some width;
     X.c_height := Some height; X.c_border_width := None;
     X.c_sibling := None; X.c_stack_mode := None |}.

(** [configure(stack_mode=Xlib.X.Above)] *)
Definition raise_to_top : X.Changes :=
  {| X.c_x := None; X.c_y := None; X.c_width := None; X.c_height := None;
     X.c_border_width := None; X.c_sibling := None;
     X.c_stack_mode := Some X.Above |}.

(** The seven keyword arguments [OnConfigureRequest] passes on. *)
Definition requested_changes (x y width height border_width : Z)
    (above : option Window) (detail : Z) : X.Changes :=
  {| X.c_x := Some x; X.c_y := Some y; X.c_width := Some width;
     X.c_height := Some height; X.c_border_width := Some border_width;
     X.c_sibling := Some above; X.c_stack_mode := Some detail |}.

(** *** Event handlers *)

Definition OnCreateNotify (e : X.Event) (self : WindowManager)
    : Result WindowManager := Ok self.
Definition OnDestroyNotify (e : X.Event) (self : WindowManager)
    : Result WindowManager := Ok self.
Definition OnReparentNotify (e : X.Event) (self : WindowManager)
    : Result WindowManager := Ok self.
Definition OnMapNotify (e : X.Event) (self : WindowManager)
    : Result WindowManager := Ok self.
Definition OnConfigureNotify (e : X.Event) (self : WindowManager)
    : Result WindowManager := Ok self.
Definition OnButtonRelease (e : X.Event) (self : WindowManager)
    : Result WindowManager := Ok self.
Definition OnKeyRelease (e : X.Event) (self : WindowManager)
    : Result WindowManager := Ok self.

Definition OnUnmapNotify (e : X.Event) (self : WindowManager)
    : Result WindowManager :=
  (* Unframe only the client windows we manage. *)
  w ← getattr (Attr.window e);
  if negb (Contains w self) then Ok self else
  (* Ignore the event if it is triggered by reparenting a window that was
     mapped before the window manager started. *)
  ev ← getattr (Attr.event e);
  if decide (ev = root self) then Ok self else
  Unframe w self.

Definition OnMapRequest (e : X.Event) (self : WindowManager)
    : Result WindowManager :=
  (* 1. Frame or re-frame window. *)
  w ← getattr (Attr.window e);
  self ← Frame w false self;
  (* 2. Actually map window. *)
  Ok (request (X.Map w) self).

Definition OnConfigureRequest (e : X.Event) (self : WindowManager)
    : Result WindowManager :=
  x ← getattr (Attr.x e);
  y ← getattr (Attr.y e);
  width ← getattr (Attr.width e);
  height ← getattr (Attr.height e);
  border_width ← getattr (Attr.border_width e);
  above ← getattr (Attr.above e);
  detail ← getattr (Attr.detail e);
  let changes := requested_changes x y width height border_width above detail in
  w ← getattr (Attr.window e);
  self ← (if Contains w self then
            frame ← subscript w self;
            Ok (request (X.Configure frame changes) self)
          else Ok self);
  Ok (request (X.Configure w changes) self).

Definition OnButtonPress (e : X.Event) (self : WindowManager)
    : Result WindowManager :=
  w ← getattr (Attr.window e);
  if negb (Contains w self) then Ok self else
  frame ← subscript w self;
  (* 1. Save initial cursor position. *)
  x_root ← getattr (Attr.x_root e);
  y_root ← getattr (Attr.y_root e);
  let self := with_drag_start_pos (x_root, y_root) self in
  (* 2. Save initial window info. *)
  '(returned_root, x, y, width, height, border_width, depth) ←
    X.get_geometry frame (display self);
  let self := with_drag_start_frame_pos (x, y) self in
  let self := with_drag_start_frame_size (width, height) self in
  (* 3. Raise clicked window to top. *)
  Ok (request (X.Configure frame
                 raise_to_top) self).

Definition OnMotionNotify (e : X.Event) (self : WindowManager)
    : Result WindowManager :=
  w ← getattr (Attr.window e);
  if negb (Contains w self) then Ok self else
  frame ← subscript w self;
  x_root ← getattr (Attr.x_root e);
  y_root ← getattr (Attr.y_root e);
  let drag_pos := (x_root, y_root) in
  start ← getattr (drag_start_pos self);
  let delta := (drag_pos.1 - start.1, drag_pos.2 - start.2)%Z in
  state ← getattr (Attr.state e);
  if truthy (Z.land state X.Button1Mask) then
    (* alt + left button: Move window. *)
    pos ← getattr (drag_start_frame_pos self);
    let dest_frame_pos := (pos.1 + delta.1, pos.2 + delta.2)%Z in
    Ok (request (X.Configure frame
                   (move_to dest_frame_pos.1 dest_frame_pos.2)) self)
  else if truthy (Z.land state X.Button3Mask) then
    (* alt + right button: Resize window.
       Window dimensions cannot be negative. *)
    size ← getattr (drag_start_frame_size self);
    let size_delta := (Z.max delta.1 (- size.1), Z.max delta.2 (- size.2))%Z in
    let dest_frame_size := (size.1 + size_delta.1, size.2 + size_delta.2)%Z in
    (* 1. Resize frame. *)
    let self := request (X.Configure frame
                  (resize_to dest_frame_size.1 dest_frame_size.2)) self in
    (* 2. Resize client window. *)
    Ok (request (X.Configure w
                   (resize_to dest_frame_size.1 dest_frame_size.2)) self)
  else Ok self.

(** [e.state & Xlib.X.Mod1Mask and
     e.keycode == self.display.keysym_to_keycode(Xlib.name)]: the right
    operand of [and] is evaluated only when the modifier bit is set, and
    then from left to right: the event's keycode, then the argument
    [Xlib.name], whose value in [Xlib.XK] is [keysym]. *)
Definition pressed_with_mod1 (name : string) (keysym : Z) (e : X.Event)
    (self : WindowManager) : Result bool :=
  state ← getattr (Attr.state e);
  if truthy (Z.land state X.Mod1Mask) then
    keycode ← getattr (Attr.keycode e);
    _ ← Xlib.read Xlib.package_names name;
    Ok (keycode =? X.keysym_to_keycode keysym (display self))%Z
  else Ok false.

(** [while next(i) != w: pass] on an iterator with [it] left to yield: the
    rest of the iterator once [w] has come out, [StopIteration] when it
    never does. *)
Fixpoint advance_past (w : Window) (it : list Window) : Result (list Window) :=
  match it with
  | [] => Raise StopIteration
  | k :: it' => if decide (k = w) then Ok it' else advance_past w it'
  end.

(** [next(i)] *)
Definition next (it : list Window) : Result Window :=
  match it with
  | [] => Raise StopIteration
  | k :: _ => Ok k
  end.

Definition OnKeyPress (e : X.Event) (self : WindowManager)
    : Result WindowManager :=
  close ← pressed_with_mod1 "XK_F4" X.XK_F4 e self;
  if close : bool then
    (* alt + f4: Close window. *)
    w ← getattr (Attr.window e);
    supported_protocols ← X.get_wm_protocols w (display self);
    if bool_decide (WM_DELETE_WINDOW self ∈ supported_protocols) then
      (* 1. Construct message. *)
      msg ← X.ClientMessage w (WM_PROTOCOLS self)
               (32%Z, [WM_DELETE_WINDOW self; X.CurrentTime]);
      (* 2. Send message to window to be closed. *)
      Ok (request msg self)
    else
      Ok (request (X.KillClient w) self)
  else
  cycle ← pressed_with_mod1 "XK_Tab" X.XK_Tab e self;
  if cycle : bool then
    (* alt + tab: Switch window. *)
    w ← getattr (Attr.window e);
    (* 1. Find next window. *)
    i ← advance_past w (Dict.keys (clients self));
    next_window ← match next i with
                  | Raise StopIteration => next (Dict.keys (clients self))
                  | r => r
                  end;
    (* 2. Raise and set focus. *)
    next_frame ← subscript next_window self;
    let self := request (X.Configure next_frame
                  raise_to_top) self in
    Ok (request (X.SetInputFocus next_window X.RevertToPointerRoot
                   X.CurrentTime) self)
  else Ok self.

(** *** Error handlers *)

Definition OnXError (e : X.XError) (self : WindowManager)
    : Result (Z * WindowManager) :=
  (* The error text is looked up on the display.  The arguments of the
     logging call are then evaluated in order; the second is
     [Xlib.X.request_code_to_name(e.request_code)]. *)
  _ ← Xlib.read Xlib.X_names "request_code_to_name";
  (* The return value is ignored. *)
  Ok (0%Z, self).

(** [with WindowManager.wm_detected_mutex:] takes a [threading.Lock], which
    is not reentrant: taking it while it is held waits for a release, and in
    this program no other thread is there to release it. *)
Definition acquire (self : WindowManager) : Result WindowManager :=
  if wm_detected_mutex self then Blocks OnLock else Ok (with_mutex true self).

Definition release (self : WindowManager) : WindowManager :=
  with_mutex false self.

Definition OnWMDetected (e : X.XError) (self : WindowManager)
    : Result (Z * WindowManager) :=
  (* We don't expect this handler to receive any error but BadAccess. *)
  if negb (X.error_code e =? X.BadAccess)%Z then Raise AssertionError else
  (* Set flag. *)
  self ← acquire self;
  let self := with_wm_detected true self in
  let self := release self in
  (* The return value is ignored. *)
  Ok (0%Z, self).

(** *** Run *)

Definition set_error_handler (h : X.ErrorHandler) (self : WindowManager)
    : WindowManager :=
  with_display (X.with_error_handler h (display self)) self.

(** The connection hands an error to the handler that is installed. *)
Definition call_error_handler (self : WindowManager) (e : X.XError)
    : Result WindowManager :=
  match X.error_handler (display self) with
  | X.HandlerOnWMDetected => '(_, self) ← OnWMDetected e self; Ok self
  | X.HandlerOnXError => '(_, self) ← OnXError e self; Ok self
  | X.DefaultHandler => Ok self
  end.

Fixpoint for_each {A S : Type} (body : S → A → Result S) (s : S) (l : list A)
    : Result S :=
  match l with
  | [] => Ok s
  | a :: l' => s' ← body s a; for_each body s' l'
  end.

(** [self.display.sync()]: a round trip, during which the errors of the
    requests sent so far reach the error handler, on the calling thread. *)
Definition sync (self : WindowManager) : Result WindowManager :=
  let es := X.errors (display self) in
  let self := with_display (X.with_errors [] (display self)) self in
  for_each call_error_handler self es.

(** The initialization of [Run], up to the main loop.  The boolean tells
    whether [Run] goes on into the loop ([true]) or has returned because
    another window manager was detected ([false]). *)
Definition Run_initialization (self : WindowManager)
    : Result (bool * WindowManager) :=
  (*   a. Select events on root window, with a special error handler. *)
  self ← acquire self;
  let self := with_wm_detected false self in
  let self := set_error_handler X.HandlerOnWMDetected self in
  let self := request (X.ChangeAttributes (root self)
                (Z.lor X.SubstructureRedirectMask X.SubstructureNotifyMask)) self in
  self ← sync self;
  if wm_detected self then Ok (false, release self) else
  let self := release self in
  (*   b. Set error handler. *)
  let self := set_error_handler X.HandlerOnXError self in
  (*   c. Grab X server. *)
  let self := request X.GrabServer self in
  (*   d. Reparent existing top-level windows. *)
  '(returned_root, returned_parent, top_level_windows) ←
    X.query_tree (root self) (display self);
  self ← for_each (λ self w, Frame w true self) self top_level_windows;
  (*     iii. Free top-level window array. *)
  let self := with_display (X.xfree top_level_windows (display self)) self in
  (*   e. Ungrab X server. *)
  Ok (true, request X.UngrabServer self).

(** The inner loop of the MotionNotify case,
    [while check_pending(): e = next_event(); if ...: break], on the queue
    [q]: the event [e] holds when the loop ends, and what is left queued. *)
Fixpoint skip_pending (e : X.Event) (q : list X.Event)
    : Result (X.Event * list X.Event) :=
  match q with
  | [] => Ok (e, [])
  | e' :: q' =>
      stop ← (if negb (X.type e' =? X.Code.MotionNotify)%Z then Ok true else
                w1 ← getattr (Attr.window e');
                w2 ← getattr (Attr.window e');
                Ok (negb (bool_decide (w1 = w2))));
      if stop : bool then Ok (e', q') else skip_pending e' q'
  end.

(** 2. Dispatch event. *)
Definition dispatch (e : X.Event) (self : WindowManager) : Result WindowManager :=
  if (X.type e =? X.Code.CreateNotify)%Z then OnCreateNotify e self
  else if (X.type e =? X.Code.DestroyNotify)%Z then OnDestroyNotify e self
  else if (X.type e =? X.Code.ReparentNotify)%Z then OnReparentNotify e self
  else if (X.type e =? X.Code.MapNotify)%Z then OnMapNotify e self
  else if (X.type e =? X.Code.UnmapNotify)%Z then OnUnmapNotify e self
  else if (X.type e =? X.Code.ConfigureNotify)%Z then OnConfigureNotify e self
  else if (X.type e =? X.Code.MapRequest)%Z then OnMapRequest e self
  else if (X.type e =? X.Code.ConfigureRequest)%Z then OnConfigureRequest e self
  else if (X.type e =? X.Code.ButtonPress)%Z then OnButtonPress e self
  else if (X.type e =? X.Code.ButtonRelease)%Z then OnButtonRelease e self
  else if (X.type e =? X.Code.MotionNotify)%Z then
    (* Skip any already pending motion events. *)
    '(e, q) ← skip_pending e (X.pending (display self));
    let self := with_display (X.with_pending q (display self)) self in
    OnMotionNotify e self
  else if (X.type e =? X.Code.KeyPress)%Z then OnKeyPress e self
  else if (X.type e =? X.Code.KeyRelease)%Z then OnKeyRelease e self
  else Ok self.

(** One turn of the main loop: 1. get next event, 2. dispatch it. *)
Definition Run_iteration (self : WindowManager) : Result WindowManager :=
  '(e, d) ← X.next_event (display self);
  dispatch e (with_display d self).

(** [n] turns of the main loop. *)
Fixpoint Run_loop (n : nat) (self : WindowManager) : Result WindowManager :=
  match n with
  | O => Ok self
  | S n' => self ← Run_iteration self; Run_loop n' self
  end.

(** ** Vocabulary of the statements *)

(** The lifecycle calls on client windows. *)
Inductive Lifecycle : Type :=
  | CallFrame (w : Window) (was_pre_existing : bool)
  | CallUnframe (w : Window).

Definition target (op : Lifecycle) : Window :=
  match op with
  | CallFrame w _ => w
  | CallUnframe w => w
  end.

Definition call (self : WindowManager) (op : Lifecycle) : Result WindowManager :=
  match op with
  | CallFrame w b => Frame w b self
  | CallUnframe w => Unframe w self
  end.

(** A sequence of lifecycle calls, one after the other. *)
Definition calls (ops : list Lifecycle) (self : WindowManager)
    : Result WindowManager :=
  for_each call self ops.

(** The window is viewable and does not set override-redirect: what [Frame]
    asks of a window created before the manager. *)
Definition takeover_candidate (w : Window) (self : WindowManager) : bool :=
  match X.get_attributes w (display self) with
  | Ok attrs =>
      negb (X.a_override_redirect attrs)
      && (X.a_map_state attrs =? X.IsViewable)%Z
  | _ => false
  end.

(** Position and size of a window, when the server has it. *)
Definition geometry (w : Window) (self : WindowManager) : option (Z * Z * Z * Z) :=
  a ← X.windows (display self) !! w;
  Some (X.win_x a, X.win_y a, X.win_width a, X.win_height a).

Definition is_motion (e : X.Event) : Prop :=
  match e with
  | X.MotionNotify _ _ _ _ => True
  | _ => False
  end.

(** ** A small session

    A screen with root window 1 and four top-level windows: an editor, a
    terminal and a clock, all mapped, and a popup menu that sets
    override-redirect.  The keyboard has F4 on keycode 70 and Tab on 23. *)
Module Session.
Definition root_window : Window := 1%positive.
Definition editor : Window := 2%positive.
Definition popup : Window := 3%positive.
Definition terminal : Window := 4%positive.
Definition clock : Window := 5%positive.

Definition top_level (override_redirect : bool) : X.Win :=
  {| X.win_parent := Some root_window; X.win_x := 10; X.win_y := 10;
     X.win_width := 100; X.win_height := 50; X.win_border_width := 0;
     X.win_depth := 24; X.win_override_redirect := override_redirect;
     X.win_mapped := true; X.win_event_mask := 0; X.win_protocols := [] |}.

Definition the_root : X.Win :=
  {| X.win_parent := None; X.win_x := 0; X.win_y := 0;
     X.win_width := 1024; X.win_height := 768; X.win_border_width := 0;
     X.win_depth := 24; X.win_override_redirect := false;
     X.win_mapped := true; X.win_event_mask := 0; X.win_protocols := [] |}.

Definition server (queue : list X.Event) : X.Server :=
  {| X.screen_root := root_window;
     X.windows := <[root_window := the_root]>
                  (<[editor := top_level false]>
                  (<[popup := top_level true]>
                  (<[terminal := top_level false]>
                  (<[clock := top_level false]> ∅))));
     X.save_set := ∅;
     X.input_focus := None;
     X.redirect_taken := ∅;
     X.keymap := λ keysym, if (keysym =? X.XK_F4)%Z then 70%Z
                           else if (keysym =? X.XK_Tab)%Z then 23%Z else 0%Z;
     X.error_handler := X.DefaultHandler;
     X.errors := [];
     X.pending := queue;
     X.log := [] |}.

(** A manager that has just been constructed on that display, with
    [queue] waiting on the connection. *)
Definition manager (queue : list X.Event) : WindowManager :=
  {| display := server queue; WM_PROTOCOLS := 300; WM_DELETE_WINDOW := 301;
     clients := [];
     drag_start_pos := None; drag_start_frame_pos := None;
     drag_start_frame_size := None;
     wm_detected := false; wm_detected_mutex := false |}.

(** The same display with another window manager already running. *)
Definition rival (self : WindowManager) : WindowManager :=
  with_display
    {| X.screen_root := X.screen_root (display self);
       X.windows := X.windows (display self);
       X.save_set := X.save_set (display self);
       X.input_focus := X.input_focus (display self);
       X.redirect_taken := {[ root_window ]};
       X.keymap := X.keymap (display self);
       X.error_handler := X.error_handler (display self);
       X.errors := X.errors (display self);
       X.pending := X.pending (display self);
       X.log := X.log (display self) |} self.

(** The state a run leaves behind, for the run below, which returns. *)
Definition outcome (r : Result WindowManager) : WindowManager :=
  match r with
  | Ok self => self
  | _ => manager []
  end.

(** A frame around a top-level window of the session: a mapped child of the
    root in the window's place, with the decoration border and the
    manager's event selection. *)
Definition frame_window : X.Win :=
  {| X.win_parent := Some root_window; X.win_x := 10; X.win_y := 10;
     X.win_width := 100; X.win_height := 50;
     X.win_border_width := BORDER_WIDTH;
     X.win_depth := 24; X.win_override_redirect := false;
     X.win_mapped := true;
     X.win_event_mask :=
       Z.lor X.SubstructureRedirectMask X.SubstructureNotifyMask;
     X.win_protocols := [] |}.

(** A manager whose registry is [registry], a list of clients with their
    frames: on its display each of these clients sits inside its frame at
    (0, 0) and is in the save-set.  [queue] waits on the connection. *)
Definition holding (registry : list (Window * Window)) (queue : list X.Event)
    : WindowManager :=
  {| display :=
       {| X.screen_root := root_window;
          X.windows :=
            foldr (λ '(w, frame) ws,
                     <[w := X.reparent_win frame 0 0 (top_level false)]>
                       (<[frame := frame_window]> ws))
                  (X.windows (server queue)) registry;
          X.save_set := list_to_set registry.*1;
          X.input_focus := None;
          X.redirect_taken := ∅;
          X.keymap := X.keymap (server queue);
          X.error_handler := X.DefaultHandler;
          X.errors := [];
          X.pending := queue;
          X.log := [] |};
     WM_PROTOCOLS := 300; WM_DELETE_WINDOW := 301;
     clients := registry;
     drag_start_pos := None; drag_start_frame_pos := None;
     drag_start_frame_size := None;
     wm_detected := false; wm_detected_mutex := false |}.

(** The editor is held in frame 6. *)
Definition editor_framed : WindowManager :=
  holding [(editor, 6%positive)] [].

(** The editor, the terminal and the clock are held in frames 6, 7 and 8,
    registered in this order. *)
Definition three_clients : WindowManager :=
  holding [(editor, 6%positive); (terminal, 7%positive);
           (clock, 8%positive)] [].

(** The editor and the terminal are held, and the main loop has handled a
    press of button 1 with Alt held on the editor, the pointer at (100, 100). *)
Definition pressed : WindowManager :=
  outcome (Run_loop 1 (holding [(editor, 6%positive); (terminal, 7%positive)]
                         [X.ButtonPress editor 100 100 8 1])).

(** The display at night: the popup is the only top-level window that is
    mapped; the clock is there, unmapped. *)
Definition night : WindowManager :=
  with_display
    {| X.screen_root := root_window;
       X.windows := <[root_window := the_root]>
                    (<[popup := top_level true]>
                    (<[clock := X.set_mapped false (top_level false)]> ∅));
       X.save_set := ∅;
       X.input_focus := None;
       X.redirect_taken := ∅;
       X.keymap := X.keymap (server []);
       X.error_handler := X.DefaultHandler;
       X.errors := [];
       X.pending := [];
       X.log := [] |} (manager []).
End Session.

(** ** Vocabulary of the further statements *)

(** The state [Run] is in when it asks for the first round trip: the lock
    taken, the flag cleared, the probe's handler installed, and the event
    selection on the root sent. *)
Definition probing (self : WindowManager) : WindowManager :=
  request (X.ChangeAttributes (root self)
             (Z.lor X.SubstructureRedirectMask X.SubstructureNotifyMask))
    (set_error_handler X.HandlerOnWMDetected
       (with_wm_detected false (with_mutex true self))).

(** The state [Run] queries the tree in: the lock released, the logging
    handler installed, the server grabbed. *)
Definition grabbed (self : WindowManager) : WindowManager :=
  request X.GrabServer
    (set_error_handler X.HandlerOnXError (release (probing self))).

(** The four requests of an unframing. *)
Definition unframing_requests (w frame : Window) (self : WindowManager)
    : list X.Request :=
  [X.Unmap frame; X.Reparent w (root self) 0 0; X.RemoveFromSaveSet w;
   X.Destroy frame].

(** ** The formatting helpers of [util.py] *)
Module Util.

(** [l[i]] on a Python list: an index below zero counts from the end, and
    [None] stands for IndexError. *)
Definition list_subscript {A : Type} (l : list A) (i : Z) : option A :=
  if (0 <=? i)%Z then l !! Z.to_nat i
  else if (- Z.of_nat (length l) <=? i)%Z
       then l !! Z.to_nat (Z.of_nat (length l) + i)
       else None.

Definition X_REQUEST_CODE_NAMES : list string :=
  [EmptyString; "CreateWindow"; "ChangeWindowAttributes";
   "GetWindowAttributes"; "DestroyWindow"; "DestroySubwindows";
   "ChangeSaveSet"; "ReparentWindow"; "MapWindow"; "MapSubwindows";
   "UnmapWindow"; "UnmapSubwindows"; "ConfigureWindow"; "CirculateWindow";
   "GetGeometry"; "QueryTree"; "InternAtom"; "GetAtomName"; "ChangeProperty";
   "DeleteProperty"; "GetProperty"; "ListProperties"; "SetSelectionOwner";
   "GetSelectionOwner"; "ConvertSelection"; "SendEvent"; "GrabPointer";
   "UngrabPointer"; "GrabButton"; "UngrabButton"; "ChangeActivePointerGrab";
   "GrabKeyboard"; "UngrabKeyboard"; "GrabKey"; "UngrabKey"; "AllowEvents";
   "GrabServer"; "UngrabServer"; "QueryPointer"; "GetMotionEvents";
   "TranslateCoords"; "WarpPointer"; "SetInputFocus"; "GetInputFocus";
   "QueryKeymap"; "OpenFont"; "CloseFont"; "QueryFont"; "QueryTextExtents";
   "ListFonts"; "ListFontsWithInfo"; "SetFontPath"; "GetFontPath";
   "CreatePixmap"; "FreePixmap"; "CreateGC"; "ChangeGC"; "CopyGC";
   "SetDashes"; "SetClipRectangles"; "FreeGC"; "ClearArea"; "CopyArea";
   "CopyPlane"; "PolyPoint"; "PolyLine"; "PolySegment"; "PolyRectangle";
   "PolyArc"; "FillPoly"; "PolyFillRectangle"; "PolyFillArc"; "PutImage";
   "GetImage"; "PolyText8"; "PolyText16"; "ImageText8"; "ImageText16";
   "CreateColormap"; "FreeColormap"; "CopyColormapAndFree";
   "InstallColormap"; "UninstallColormap"; "ListInstalledColormaps";
   "AllocColor"; "AllocNamedColor"; "AllocColorCells"; "AllocColorPlanes";
   "FreeColors"; "StoreColors"; "StoreNamedColor"; "QueryColors";
   "LookupColor"; "CreateCursor"; "CreateGlyphCursor"; "FreeCursor";
   "RecolorCursor"; "QueryBestSize"; "QueryExtension"; "ListExtensions";
   "ChangeKeyboardMapping"; "GetKeyboardMapping"; "ChangeKeyboardControl";
   "GetKeyboardControl"; "Bell"; "ChangePointerControl"; "GetPointerControl";
   "SetScreenSaver"; "GetScreenSaver"; "ChangeHosts"; "ListHosts";
   "SetAccessControl"; "SetCloseDownMode"; "KillClient"; "RotateProperties";
   "ForceScreenSaver"; "SetPointerMapping"; "GetPointerMapping";
   "SetModifierMapping"; "GetModifierMapping"; "NoOperation"]%string.

Definition XRequestCodeToString (request_code : Z) : option string :=
  list_subscript X_REQUEST_CODE_NAMES request_code.

(** The list [masks] as the seven tests leave it. *)
Definition value_mask_names (value_mask : Z) : list string :=
  let masks := [] in
  let masks := if truthy (Z.land value_mask 1) then masks ++ ["X"%string]
               else masks in
  let masks := if truthy (Z.land value_mask 2) then masks ++ ["Y"%string]
               else masks in
  let masks := if truthy (Z.land value_mask 4) then masks ++ ["Width"%string]
               else masks in
  let masks := if truthy (Z.land value_mask 8) then masks ++ ["Height"%string]
               else masks in
  let masks := if truthy (Z.land value_mask 16)
               then masks ++ ["BorderWidth"%string] else masks in
  let masks := if truthy (Z.land value_mask 32)
               then masks ++ ["Sibling"%string] else masks in
  let masks := if truthy (Z.land value_mask 64)
               then masks ++ ["StackMode"%string] else masks in
  masks.

(** ["|".join(masks)] *)
Definition XConfigureWindowValueMaskToString (value_mask : Z) : string :=
  String.concat "|" (value_mask_names value_mask).

End Util.

(** The check that two masks below 128 which print alike are the same mask. *)
Definition prints_apart (n1 n2 : nat) : bool :=
  implb (bool_decide (Util.XConfigureWindowValueMaskToString (Z.of_nat n1)
                      = Util.XConfigureWindowValueMaskToString (Z.of_nat n2)))
        (bool_decide (n1 = n2)).

(** * Properties *)

(** ** The dictionary *)

Section DictFacts.
Context {V : Type}.
Implicit Types (d : list (Window * V)) (k : Window) (v : V).

Lemma Dict_mem_true k d : Dict.mem k d = true ↔ is_Some (Dict.get k d).
Proof. unfold Dict.mem. apply bool_decide_eq_true. Qed.

Lemma Dict_mem_false k d : Dict.mem k d = false ↔ Dict.get k d = None.
Proof.
  unfold Dict.mem. rewrite bool_decide_eq_false, eq_None_not_Some. done.
Qed.

Lemma Dict_get_del_eq k d : Dict.get k (Dict.del k d) = None.
Proof.
  unfold Dict.del. induction d as [|[k' v'] d IH]; [done|].
  rewrite filter_cons. simpl. destruct (decide (k' ≠ k)) as [Hne|Heq]; simpl.
  - by rewrite decide_False.
  - done.
Qed.

Lemma Dict_get_del_ne k k' d :
  k ≠ k' → Dict.get k' (Dict.del k d) = Dict.get k' d.
Proof.
  intros Hne. unfold Dict.del. induction d as [|[k0 v0] d IH]; [done|].
  rewrite filter_cons. simpl. destruct (decide (k0 ≠ k)) as [Hne0|Heq]; simpl.
  - by rewrite IH.
  - apply dec_stable in Heq. subst k0. by rewrite decide_False.
Qed.

Lemma Dict_get_None_keys k d : Dict.get k d = None ↔ k ∉ Dict.keys d.
Proof.
  unfold Dict.keys. induction d as [|[k' v'] d IH]; simpl.
  - split; [intros _; apply not_elem_of_nil | done].
  - rewrite not_elem_of_cons. destruct (decide (k' = k)) as [->|Hne].
    + split; [done | intros [? _]; done].
    + rewrite IH. split; [intros ?; split; [congruence | done] | intros [_ ?]; done].
Qed.

Lemma Dict_del_absent k d : Dict.get k d = None → Dict.del k d = d.
Proof.
  unfold Dict.del. induction d as [|[k' v'] d IH]; [done|]. simpl.
  destruct (decide (k' = k)); [done|]. intros H.
  rewrite filter_cons. simpl. rewrite decide_True by done. by rewrite IH.
Qed.

End DictFacts.

(** ** The names the package binds *)

(** The constants the source reads from [Xlib.X] are bound there. *)
Lemma Xlib_X_binds_the_constants :
  Forall (λ name, Xlib.read Xlib.X_names name = Ok ())
    ["SubstructureRedirectMask"; "SubstructureNotifyMask"; "CreateNotify";
     "DestroyNotify"; "ReparentNotify"; "MapNotify"; "UnmapNotify";
     "ConfigureNotify"; "MapRequest"; "ConfigureRequest"; "ButtonPress";
     "ButtonRelease"; "MotionNotify"; "KeyPress"; "KeyRelease";
     "IsViewable"; "Mod1Mask"; "GrabModeAsync"; "NONE"; "Above";
     "Button1Mask"; "Button3Mask"; "CurrentTime"; "RevertToPointerRoot";
     "BadAccess"]%string.
Proof. repeat constructor. Qed.

(** The two functions the source calls on [Xlib.X] are not bound there, and
    the package binds neither keysym. *)
Lemma Xlib_X_create_simple_window :
  Xlib.read Xlib.X_names "create_simple_window" = Raise AttributeError.
Proof. reflexivity. Qed.

Lemma Xlib_X_request_code_to_name :
  Xlib.read Xlib.X_names "request_code_to_name" = Raise AttributeError.
Proof. reflexivity. Qed.

Lemma Xlib_XK_F4 :
  Xlib.read Xlib.package_names "XK_F4" = Raise AttributeError.
Proof. reflexivity. Qed.

Lemma Xlib_XK_Tab :
  Xlib.read Xlib.package_names "XK_Tab" = Raise AttributeError.
Proof. reflexivity. Qed.

(** The logging handler stops at the second argument of its logging call. *)
Lemma OnXError_raises e self : OnXError e self = Raise AttributeError.
Proof. unfold OnXError. by rewrite Xlib_X_request_code_to_name. Qed.

(** ** Frame and Unframe on the registry *)

Lemma Contains_true w self :
  Contains w self = true ↔ is_Some (Dict.get w (clients self)).
Proof. apply Dict_mem_true. Qed.

Lemma Contains_false w self :
  Contains w self = false ↔ Dict.get w (clients self) = None.
Proof. apply Dict_mem_false. Qed.

Lemma Contains_get_eq w s s' :
  Dict.get w (clients s') = Dict.get w (clients s) →
  Contains w s' = Contains w s.
Proof. unfold Contains, Dict.mem. by intros ->. Qed.

Lemma Frame_contained w b self :
  Contains w self = true → Frame w b self = Ok self.
Proof. intros H. unfold Frame. by rewrite H. Qed.

(** How a call of [Frame] ends: the two guards return, and past them the
    call stops at the reference to [Xlib.X.create_simple_window]. *)
Lemma Frame_outcome w b self :
  Frame w b self =
    if Contains w self then Ok self else
    match X.get_attributes w (display self) with
    | Ok _ =>
        if b && negb (takeover_candidate w self) then Ok self
        else Raise AttributeError
    | Raise e => Raise e
    | Blocks x => Blocks x
    end.
Proof.
  unfold Frame, takeover_candidate.
  destruct (Contains w self); [done|].
  destruct (X.get_attributes w (display self)) as [attrs| |]; simpl; [|done..].
  rewrite negb_andb, negb_involutive.
  by destruct (b && _).
Qed.

(** A [Frame] call that returns has changed nothing. *)
Lemma Frame_Ok_inv w b self self' :
  Frame w b self = Ok self' →
  self' = self
  ∧ (Contains w self = true
     ∨ (b = true ∧ takeover_candidate w self = false
        ∧ is_Some (X.windows (display self) !! w))).
Proof.
  rewrite Frame_outcome. destruct (Contains w self); [intros [= <-]; auto|].
  unfold takeover_candidate, X.get_attributes.
  destruct (X.windows (display self) !! w) as [a|]; [|done].
  destruct b; simpl; [|done].
  destruct (negb _ && _); simpl; [done|]. intros [= <-]. eauto 6.
Qed.

Lemma Frame_raises w b a self :
  Contains w self = false →
  X.windows (display self) !! w = Some a →
  b = false ∨ takeover_candidate w self = true →
  Frame w b self = Raise AttributeError.
Proof.
  intros Hc Hw Hb. rewrite Frame_outcome, Hc.
  unfold X.get_attributes. rewrite Hw.
  destruct Hb as [->| ->]; [done|]. by rewrite andb_false_r.
Qed.

Lemma Frame_turned_away w a self :
  Contains w self = false →
  X.windows (display self) !! w = Some a →
  takeover_candidate w self = false →
  Frame w true self = Ok self.
Proof.
  intros Hc Hw Hb. rewrite Frame_outcome, Hc.
  unfold X.get_attributes. rewrite Hw. by rewrite Hb.
Qed.

Lemma Frame_other w w' b self self' :
  Frame w' b self = Ok self' → Contains w self' = Contains w self.
Proof. by intros [-> _]%Frame_Ok_inv. Qed.

Lemma Unframe_clients w self self' :
  Unframe w self = Ok self' → clients self' = Dict.del w (clients self).
Proof.
  unfold Unframe, subscript. destruct (Contains w self) eqn:Hc; simpl.
  - apply Contains_true in Hc as [frame Hf]. rewrite Hf. simpl. by intros [= <-].
  - intros [= <-]. apply Contains_false in Hc. by rewrite Dict_del_absent.
Qed.

Lemma Unframe_self w self self' :
  Unframe w self = Ok self' → Contains w self' = false.
Proof.
  intros HU. apply Contains_false. rewrite (Unframe_clients _ _ _ HU).
  apply Dict_get_del_eq.
Qed.

Lemma Unframe_other w w' self self' :
  Unframe w' self = Ok self' → w' ≠ w → Contains w self' = Contains w self.
Proof.
  intros HU Hne. apply Contains_get_eq. rewrite (Unframe_clients _ _ _ HU).
  by apply Dict_get_del_ne.
Qed.

Lemma Unframe_returns w self : ∃ self', Unframe w self = Ok self'.
Proof.
  unfold Unframe, subscript. destruct (Contains w self) eqn:Hc; simpl.
  - apply Contains_true in Hc as [frame Hf]. rewrite Hf. simpl. by eexists.
  - by eexists.
Qed.

Lemma calls_cons op ops self :
  calls (op :: ops) self = call self op ≫= calls ops.
Proof. done. Qed.

Lemma calls_elsewhere w ops : ∀ self self',
  Forall (λ op, target op ≠ w) ops →
  calls ops self = Ok self' →
  Contains w self' = Contains w self.
Proof.
  induction ops as [|op ops IH]; intros self self' Hall.
  - by intros [= <-].
  - apply Forall_cons in Hall as [Hop Hall]. rewrite calls_cons.
    destruct (call self op) as [s1| |] eqn:H1; simpl; [|done..].
    intros Hrest. rewrite (IH _ _ Hall Hrest).
    destruct op as [w' b|w']; simpl in *.
    + by eapply Frame_other.
    + by eapply Unframe_other.
Qed.

Lemma Frame_twice w b1 b2 self :
  Frame w b1 self ≫= Frame w b2 = Frame w (b1 && b2) self.
Proof.
  destruct (Frame w b1 self) as [s1| |] eqn:H1; simpl.
  - destruct (Frame_Ok_inv _ _ _ _ H1) as [-> [Hc|(-> & _)]]; [|done].
    by rewrite !Frame_contained.
  - revert H1. rewrite !Frame_outcome.
    destruct (Contains w self); [done|].
    destruct (X.get_attributes w (display self)); [|done..].
    destruct b1; simpl; [|done].
    destruct (takeover_candidate w self); simpl; [|done].
    by rewrite andb_false_r.
  - revert H1. rewrite !Frame_outcome.
    destruct (Contains w self); [done|].
    destruct (X.get_attributes w (display self)); [|done..].
    by destruct (b1 && _).
Qed.

(** Claim C1, amended.  For every client window, after a sequence of
    lifecycle calls whose last call on that window is [Unframe], the window
    is not contained.  When that last call is [Frame]: a window that was
    contained before the call is contained; a window that was not
    contained, given to [Frame] with [was_pre_existing] true while it set
    override-redirect or was not viewable, is not contained.  [Frame] on a
    contained client changes nothing, and two consecutive [Frame] calls on
    a window end as one: with the same flag as that call, in general as
    the call whose flag is the conjunction of the two. *)
Theorem lifecycle_decides_contains :
  (∀ (w : Window) (op : Lifecycle) (later : list Lifecycle)
     (before after : WindowManager),
      target op = w →
      Forall (λ op', target op' ≠ w) later →
      calls (op :: later) before = Ok after →
      match op with
      | CallUnframe _ => Contains w after = false
      | CallFrame _ was_pre_existing =>
          (Contains w before = true → Contains w after = true)
          ∧ (Contains w before = false → was_pre_existing = true →
             takeover_candidate w before = false →
             Contains w after = false)
      end)
  ∧ (∀ (w : Window) (b : bool) (self : WindowManager),
      Contains w self = true → Frame w b self = Ok self)
  ∧ (∀ (w : Window) (b : bool) (self : WindowManager),
      Frame w b self ≫= Frame w b = Frame w b self)
  ∧ (∀ (w : Window) (b1 b2 : bool) (self : WindowManager),
      Frame w b1 self ≫= Frame w b2 = Frame w (b1 && b2) self).
Proof.
  split; [|split; [|split]].
  - intros w op later before after Ht Hlater. rewrite calls_cons.
    destruct (call before op) as [s1| |] eqn:H1; simpl; [|done..].
    intros Hrest. rewrite (calls_elsewhere _ _ _ _ Hlater Hrest).
    destruct op as [w' b|w']; simpl in *; subst w'.
    + rewrite (Frame_other w _ _ _ _ H1). by split; [|intros ->].
    + by eapply Unframe_self.
  - apply Frame_contained.
  - intros w b self. rewrite Frame_twice. by rewrite andb_diag.
  - apply Frame_twice.
Qed.

(** In the session: the last lifecycle call on the popup is [Frame], as a
    window from before the manager, and the popup is not contained. *)
Lemma pre_existing_popup_is_left_out :
  ∃ after,
    calls [CallFrame Session.popup true] (Session.manager []) = Ok after
    ∧ Contains Session.popup after = false.
Proof. eexists. split; [vm_compute; reflexivity|]. by vm_compute. Qed.

(** In the session: the editor, held in its frame, stays contained through
    a [Frame] call on it and later calls on other windows; the popup, given
    to [Frame] as a window from before the manager, stays out. *)
Lemma lifecycle_decides_contains_session :
  ∃ after,
    calls [CallFrame Session.editor true; CallFrame Session.popup true;
           CallUnframe Session.terminal] Session.editor_framed = Ok after
    ∧ Contains Session.editor after = true
    ∧ Contains Session.popup after = false.
Proof.
  assert (∃ after,
    calls [CallFrame Session.editor true; CallFrame Session.popup true;
           CallUnframe Session.terminal] Session.editor_framed = Ok after)
    as [after Hafter] by (vm_compute; eauto).
  exists after. split; [exact Hafter|]. split.
  - refine (proj1 (proj1 lifecycle_decides_contains Session.editor
             (CallFrame Session.editor true)
             [CallFrame Session.popup true; CallUnframe Session.terminal]
             Session.editor_framed after eq_refl _ Hafter) eq_refl).
    repeat constructor; done.
  - revert Hafter. rewrite calls_cons. simpl.
    intros Hafter.
    refine (proj2 (proj1 lifecycle_decides_contains Session.popup
             (CallFrame Session.popup true) [CallUnframe Session.terminal]
             Session.editor_framed after eq_refl _ Hafter) eq_refl eq_refl eq_refl).
    repeat constructor; done.
Defined.

(** ** Map requests *)

(** Claim C2, as the code has it.  [Frame] called with [was_pre_existing]
    true on a window whose override-redirect attribute is set, or which is
    not viewable, returns with the state, the registry included, unchanged.
    The dispatcher hands a MapRequest to [OnMapRequest], which calls [Frame]
    with the flag false and then maps the window.  For a window of the server that is not in
    the registry that call of [Frame] raises AttributeError, whatever the
    window's attributes are: the window is neither framed nor mapped, and
    the exception leaves the handler and the dispatcher. *)
Theorem pre_existing_filter_and_map_request :
  (∀ (w : Window) (self : WindowManager) (attrs : X.Attrs),
      X.get_attributes w (display self) = Ok attrs →
      X.a_override_redirect attrs = true
      ∨ X.a_map_state attrs ≠ X.IsViewable →
      Frame w true self = Ok self)
  ∧ (∀ (p w : Window) (self : WindowManager),
      dispatch (X.MapRequest p w) self = OnMapRequest (X.MapRequest p w) self
      ∧ OnMapRequest (X.MapRequest p w) self
        = Frame w false self ≫= λ framed, Ok (request (X.Map w) framed))
  ∧ (∀ (p w : Window) (self : WindowManager) (attrs : X.Attrs),
      X.get_attributes w (display self) = Ok attrs →
      Contains w self = false →
      Frame w false self = Raise AttributeError
      ∧ OnMapRequest (X.MapRequest p w) self = Raise AttributeError
      ∧ dispatch (X.MapRequest p w) self = Raise AttributeError).
Proof.
  split; [|split].
  - intros w self attrs Ha Hskip. unfold Frame.
    destruct (Contains w self); [done|]. rewrite Ha. simpl.
    destruct Hskip as [->|Hv]; [done|].
    apply Z.eqb_neq in Hv. rewrite Hv. simpl. by rewrite orb_true_r.
  - done.
  - intros p w self attrs Ha Hc.
    assert (Frame w false self = Raise AttributeError) as HF.
    { rewrite Frame_outcome, Hc, Ha. done. }
    split; [done|].
    assert (OnMapRequest (X.MapRequest p w) self = Raise AttributeError) as HM.
    { unfold OnMapRequest. simpl. by rewrite HF. }
    split; [done|]. exact HM.
Qed.

(** In the session: the override-redirect popup is left alone at startup; a
    MapRequest for it, and one for the terminal, raise AttributeError. *)
Lemma pre_existing_filter_and_map_request_session :
  Frame Session.popup true (Session.manager []) = Ok (Session.manager [])
  ∧ OnMapRequest (X.MapRequest Session.root_window Session.popup)
      (Session.manager []) = Raise AttributeError
  ∧ dispatch (X.MapRequest Session.root_window Session.terminal)
      (Session.manager []) = Raise AttributeError.
Proof.
  split; [|split].
  - eapply (proj1 pre_existing_filter_and_map_request); [reflexivity|].
    left. reflexivity.
  - eapply (proj2 (proj2 pre_existing_filter_and_map_request)
              Session.root_window Session.popup (Session.manager []));
      reflexivity.
  - eapply (proj2 (proj2 pre_existing_filter_and_map_request)
              Session.root_window Session.terminal (Session.manager []));
      reflexivity.
Defined.

(** ** Unmap notifications *)

(** Claim C3.  The dispatcher hands an UnmapNotify to [OnUnmapNotify].  When
    the event's window is not a registry key the handler changes nothing;
    when it is a key and the event's reported parent is the root the handler
    changes nothing either; when it is a key and the reported parent is not
    the root the handler is [Unframe] on that window, which returns with the
    window out of the registry. *)
Theorem unmap_notify_unframes_only_reparented_clients
    (ev w : Window) (self : WindowManager) :
  dispatch (X.UnmapNotify ev w) self = OnUnmapNotify (X.UnmapNotify ev w) self
  ∧ (Contains w self = false →
     OnUnmapNotify (X.UnmapNotify ev w) self = Ok self)
  ∧ (Contains w self = true → ev = root self →
     OnUnmapNotify (X.UnmapNotify ev w) self = Ok self)
  ∧ (Contains w self = true → ev ≠ root self →
     OnUnmapNotify (X.UnmapNotify ev w) self = Unframe w self
     ∧ ∃ self', Unframe w self = Ok self' ∧ Contains w self' = false).
Proof.
  split; [done|]. unfold OnUnmapNotify. simpl. split; [|split].
  - by intros ->.
  - intros -> ->. simpl. by rewrite decide_True.
  - intros -> Hne. simpl. rewrite decide_False by done. split; [done|].
    destruct (Unframe_returns w self) as [self' HU]. exists self'.
    split; [done|]. by eapply Unframe_self.
Qed.

(** In the session: an UnmapNotify for the editor reported from the root is
    ignored, one reported from its frame unframes it. *)
Lemma unmap_notify_session :
  OnUnmapNotify (X.UnmapNotify Session.root_window Session.editor)
    Session.three_clients = Ok Session.three_clients
  ∧ ∃ self',
      OnUnmapNotify (X.UnmapNotify 6%positive Session.editor)
        Session.three_clients = Ok self'
      ∧ Contains Session.editor self' = false.
Proof.
  split.
  - apply (proj1 (proj2 (proj2 (unmap_notify_unframes_only_reparented_clients
             Session.root_window Session.editor Session.three_clients))));
      reflexivity.
  - destruct (proj2 (proj2 (proj2 (unmap_notify_unframes_only_reparented_clients
                              6%positive Session.editor Session.three_clients)))
                eq_refl) as (Heq & self' & HU & Hc); [done|].
    exists self'. split; [rewrite Heq; exact HU|exact Hc].
Defined.

(** ** Destroying a frame *)

Lemma destroy_win_self (ws : gmap Window X.Win) (top : Window) :
  X.destroy_win top ws !! top = None.
Proof.
  unfold X.destroy_win. apply map_lookup_filter_None. right.
  intros a _ [Hne _]. by apply Hne.
Qed.

(** A child of a window that has no parent is an inferior of that window
    only. *)
Lemma top_level_not_inferior (ws : gmap Window X.Win) (top r k : Window)
    (a : X.Win) :
  ws !! k = Some a → X.win_parent a = Some r → r ≠ top →
  (∀ ra, ws !! r = Some ra → X.win_parent ra = None) →
  ∀ n, X.inferior n ws top k = false.
Proof.
  intros Hk Hp Hne Hr [|n]; simpl; [done|]. rewrite Hk, Hp.
  rewrite bool_decide_eq_false_2 by done. simpl.
  destruct n as [|n]; simpl; [done|].
  destruct (ws !! r) as [ra|] eqn:Hra; [|done]. by rewrite (Hr ra).
Qed.

(** What [Unframe] does to a registered client on a display whose root has
    no parent. *)
Lemma Unframe_restores (c frame : Window) (a : X.Win) (self : WindowManager) :
  Dict.get c (clients self) = Some frame →
  X.windows (display self) !! c = Some a →
  c ≠ frame → c ≠ root self → frame ≠ root self →
  (∀ ra, X.windows (display self) !! root self = Some ra →
         X.win_parent ra = None) →
  ∃ unframed : WindowManager,
    Unframe c self = Ok unframed
    ∧ X.windows (display unframed) !! c
      = Some (X.reparent_win (root self) 0 0 a)
    ∧ (c ∉ X.save_set (display unframed))
    ∧ X.windows (display unframed) !! frame = None
    ∧ Contains c unframed = false.
Proof.
  intros Hget Hc Hcf Hcr Hfr Hroot.
  exists (with_clients (Dict.del c (clients self))
            (request (X.Destroy frame)
               (request (X.RemoveFromSaveSet c)
                  (request (X.Reparent c (root self) 0 0)
                     (request (X.Unmap frame) self))))).
  split.
  { unfold Unframe, subscript.
    assert (Contains c self = true) as ->
      by (apply Contains_true; by eexists).
    by rewrite Hget. }
  split.
  { simpl.
    set (ws := alter (X.reparent_win (root self) 0 0) c
                 (alter (X.set_mapped false) frame (X.windows (display self)))).
    assert (ws !! c = Some (X.reparent_win (root self) 0 0 a)) as Hwc.
    { unfold ws. rewrite lookup_alter_eq, lookup_alter_ne by done.
      by rewrite Hc. }
    unfold X.destroy_win. apply map_lookup_filter_Some. split; [done|].
    simpl. split; [done|].
    apply (top_level_not_inferior ws frame (root self) c _ Hwc);
      [done|by apply not_eq_sym|].
    intros ra. unfold ws.
    rewrite !lookup_alter_ne by (by apply not_eq_sym). apply Hroot. }
  split.
  { simpl. intros [_ Hn]%elem_of_difference. apply Hn. by apply elem_of_singleton. }
  split; [apply destroy_win_self|].
  apply Contains_false. apply Dict_get_del_eq.
Qed.

(** Claim C4, as the code has it.  For a window of the server that is not in
    the registry, [Frame], called as [OnMapRequest] calls it or on a
    viewable window without override-redirect, raises AttributeError, so
    that [Frame] followed by [Unframe] raises it too: no frame is made and
    [Unframe] is not reached.  For a client that is in the registry [Frame] changes
    nothing and [Unframe] then returns, on a display whose root has no
    parent, with the client a child of the root at offset (0, 0), out of the
    save-set and out of the registry, and with its frame no window of the
    server any more. *)
Theorem frame_then_unframe_round_trip :
  (∀ (c : Window) (was_pre_existing : bool) (a : X.Win)
     (self : WindowManager),
      Contains c self = false →
      X.windows (display self) !! c = Some a →
      was_pre_existing = false ∨ takeover_candidate c self = true →
      Frame c was_pre_existing self = Raise AttributeError
      ∧ Frame c was_pre_existing self ≫= Unframe c = Raise AttributeError)
  ∧ (∀ (c frame : Window) (was_pre_existing : bool) (a : X.Win)
       (self : WindowManager),
      Dict.get c (clients self) = Some frame →
      X.windows (display self) !! c = Some a →
      c ≠ frame → c ≠ root self → frame ≠ root self →
      (∀ ra, X.windows (display self) !! root self = Some ra →
             X.win_parent ra = None) →
      ∃ (unframed : WindowManager) (a' : X.Win),
        Frame c was_pre_existing self = Ok self
        ∧ Frame c was_pre_existing self ≫= Unframe c = Ok unframed
        ∧ X.windows (display unframed) !! c = Some a'
        ∧ X.win_parent a' = Some (root self)
        ∧ X.win_x a' = 0%Z ∧ X.win_y a' = 0%Z
        ∧ (c ∉ X.save_set (display unframed))
        ∧ X.windows (display unframed) !! frame = None
        ∧ Contains c unframed = false).
Proof.
  split.
  - intros c b a self Hc Hw Hb.
    rewrite (Frame_raises c b a self Hc Hw Hb). by split.
  - intros c frame b a self Hget Hw Hcf Hcr Hfr Hroot.
    destruct (Unframe_restores c frame a self Hget Hw Hcf Hcr Hfr Hroot)
      as (unframed & HU & Hc' & Hs & Hf & Hn).
    assert (Frame c b self = Ok self) as HF.
    { apply Frame_contained, Contains_true. by eexists. }
    exists unframed, (X.reparent_win (root self) 0 0 a).
    rewrite HF. simpl. by repeat split.
Qed.

(** In the session: [Frame] on the terminal, which no registry holds,
    raises, and so does the round trip; the editor, held in frame 6, is
    given back to the root. *)
Lemma frame_then_unframe_session :
  Frame Session.terminal false (Session.manager []) ≫= Unframe Session.terminal
  = Raise AttributeError
  ∧ ∃ (unframed : WindowManager) (a' : X.Win),
      Frame Session.editor false Session.editor_framed
        ≫= Unframe Session.editor = Ok unframed
      ∧ X.windows (display unframed) !! Session.editor = Some a'
      ∧ X.win_parent a' = Some Session.root_window
      ∧ X.win_x a' = 0%Z ∧ X.win_y a' = 0%Z
      ∧ (Session.editor ∉ X.save_set (display unframed))
      ∧ X.windows (display unframed) !! 6%positive = None
      ∧ Contains Session.editor unframed = false.
Proof.
  split.
  - apply (proj1 frame_then_unframe_round_trip Session.terminal false
             (Session.top_level false) (Session.manager []));
      [reflexivity|reflexivity|by left].
  - destruct (proj2 frame_then_unframe_round_trip Session.editor 6%positive
                false (X.reparent_win 6%positive 0 0 (Session.top_level false))
                Session.editor_framed)
      as (unframed & a' & _ & H); [reflexivity|reflexivity|done|done|done| |].
    + intros ra Hra. vm_compute in Hra. by injection Hra as <-.
    + by exists unframed, a'.
Defined.

(** ** The registry holds each client once *)

Lemma Dict_keys_del {V} k (d : list (Window * V)) :
  Dict.keys (Dict.del k d) = filter (λ k', k' ≠ k) (Dict.keys d).
Proof.
  unfold Dict.keys, Dict.del. induction d as [|[k' v'] d IH]; [done|].
  rewrite fmap_cons, !filter_cons. simpl.
  destruct (decide (k' ≠ k)); simpl; [f_equal|]; exact IH.
Qed.

Lemma Dict_del_keys_distinct {V} k (d : list (Window * V)) :
  NoDup (Dict.keys d) → NoDup (Dict.keys (Dict.del k d)).
Proof. intros Hnd. rewrite Dict_keys_del. by apply NoDup_filter. Qed.

Lemma Frame_keys_distinct w b self self' :
  Frame w b self = Ok self' →
  NoDup (Dict.keys (clients self)) → NoDup (Dict.keys (clients self')).
Proof. by intros [-> _]%Frame_Ok_inv. Qed.

Lemma Unframe_keys_distinct w self self' :
  Unframe w self = Ok self' →
  NoDup (Dict.keys (clients self)) → NoDup (Dict.keys (clients self')).
Proof.
  intros HU Hnd. rewrite (Unframe_clients _ _ _ HU).
  by apply Dict_del_keys_distinct.
Qed.

Lemma bind_Ok {A B} (m : Result A) (f : A → Result B) (b : B) :
  m ≫= f = Ok b → ∃ a, m = Ok a ∧ f a = Ok b.
Proof. destruct m as [a| |]; simpl; [|done..]. by exists a. Qed.

Ltac handler_cases H :=
  repeat first
    [ progress simplify_eq/=
    | case_match
    | match type of H with _ ≫= _ = Ok _ => apply bind_Ok in H as (? & ? & H) end ].

(** The handlers that neither frame nor unframe leave the registry alone. *)
Lemma OnConfigureRequest_clients e self self' :
  OnConfigureRequest e self = Ok self' → clients self' = clients self.
Proof.
  unfold OnConfigureRequest, subscript, getattr.
  intros H. handler_cases H; done.
Qed.

Lemma OnButtonPress_clients e self self' :
  OnButtonPress e self = Ok self' → clients self' = clients self.
Proof.
  unfold OnButtonPress, subscript, getattr, X.get_geometry.
  intros H. handler_cases H; done.
Qed.

Lemma OnMotionNotify_clients e self self' :
  OnMotionNotify e self = Ok self' → clients self' = clients self.
Proof.
  unfold OnMotionNotify, subscript, getattr.
  intros H. handler_cases H; done.
Qed.

(** [OnKeyPress] returns only when the first test finds the Mod1 bit
    clear, and then the second test finds it clear too. *)
Lemma OnKeyPress_Ok_inv e self self' :
  OnKeyPress e self = Ok self' → self' = self.
Proof.
  unfold OnKeyPress, pressed_with_mod1, getattr.
  destruct (Attr.state e) as [state|]; simpl; [|done].
  destruct (truthy (Z.land state X.Mod1Mask)); simpl.
  - by destruct (Attr.keycode e).
  - by intros [= <-].
Qed.

Lemma OnKeyPress_clients e self self' :
  OnKeyPress e self = Ok self' → clients self' = clients self.
Proof. by intros ->%OnKeyPress_Ok_inv. Qed.

Lemma dispatch_keys_distinct e self self' :
  dispatch e self = Ok self' →
  NoDup (Dict.keys (clients self)) → NoDup (Dict.keys (clients self')).
Proof.
  unfold dispatch. intros H Hnd.
  repeat case_match; try (by injection H as <-).
  - revert H. unfold OnUnmapNotify, getattr.
    intros H. handler_cases H; try done.
    by eapply Unframe_keys_distinct.
  - revert H. unfold OnMapRequest, getattr.
    intros H. handler_cases H; try done.
    by eapply Frame_keys_distinct.
  - by rewrite (OnConfigureRequest_clients _ _ _ H).
  - by rewrite (OnButtonPress_clients _ _ _ H).
  - simpl in H. destruct (skip_pending _ _) as [[e' q]| |]; simpl in H; [|done..].
    by rewrite (OnMotionNotify_clients _ _ _ H).
  - by rewrite (OnKeyPress_clients _ _ _ H).
Qed.

Lemma Run_loop_keys_distinct n : ∀ self self',
  Run_loop n self = Ok self' →
  NoDup (Dict.keys (clients self)) → NoDup (Dict.keys (clients self')).
Proof.
  induction n as [|n IH]; intros self self'; simpl.
  - by intros [= <-].
  - unfold Run_iteration, X.next_event.
    destruct (X.pending (display self)) as [|e q]; simpl; [done|].
    destruct (dispatch e _) as [s1| |] eqn:Hd; simpl; [|done..].
    intros Hrest Hnd. apply (IH _ _ Hrest).
    by apply (dispatch_keys_distinct _ _ _ Hd).
Qed.

(** ** The drag *)

Lemma Contains_of_get w frame self :
  Dict.get w (clients self) = Some frame → Contains w self = true.
Proof. intros H. apply Contains_true. by eexists. Qed.

Lemma truthy_true n : n ≠ 0%Z → truthy n = true.
Proof. intros H. unfold truthy. by apply negb_true_iff, Z.eqb_neq. Qed.

Lemma truthy_false n : n = 0%Z → truthy n = false.
Proof. by intros ->. Qed.

Lemma geometry_configure w k c self :
  geometry k (request (X.Configure w c) self)
  = if decide (w = k)
    then (λ '(x, y, width, height),
            (default x (X.c_x c), default y (X.c_y c),
             default width (X.c_width c), default height (X.c_height c)))
         <$> geometry k self
    else geometry k self.
Proof.
  unfold geometry. simpl. case_decide as Hk.
  - subst k. rewrite lookup_alter_eq.
    by destruct (X.windows (display self) !! w).
  - by rewrite lookup_alter_ne.
Qed.

(** Claim C6.  For a MotionNotify on a registered client, with the three
    drag-start attributes assigned and delta the event's root pointer
    position minus the drag-start root position: when the Button1 bit is set
    in the event state, the handler configures the frame to the drag-start
    frame position plus delta, and the frame keeps its size; when that bit is
    clear and the Button3 bit is set, with size_delta the component-wise
    maximum of delta and minus the drag-start frame size, the new width and
    height, drag-start size plus size_delta, are not negative, and the
    handler configures the frame and then the client to that same size. *)
Theorem motion_moves_or_resizes_from_drag_start
    (w frame : Window) (x_root y_root state : Z) (start pos size : Z * Z)
    (self : WindowManager) :
  Dict.get w (clients self) = Some frame →
  drag_start_pos self = Some start →
  drag_start_frame_pos self = Some pos →
  drag_start_frame_size self = Some size →
  let delta := ((x_root - start.1)%Z, (y_root - start.2)%Z) in
  let e := X.MotionNotify w x_root y_root state in
  (Z.land state X.Button1Mask ≠ 0%Z →
     let x := (pos.1 + delta.1)%Z in
     let y := (pos.2 + delta.2)%Z in
     OnMotionNotify e self
       = Ok (request (X.Configure frame (move_to x y)) self)
     ∧ geometry frame (request (X.Configure frame (move_to x y)) self)
       = (λ '(_, _, width, height), (x, y, width, height))
         <$> geometry frame self)
  ∧ (Z.land state X.Button1Mask = 0%Z →
     Z.land state X.Button3Mask ≠ 0%Z →
     let size_delta := (Z.max delta.1 (- size.1), Z.max delta.2 (- size.2)) in
     let width := (size.1 + size_delta.1)%Z in
     let height := (size.2 + size_delta.2)%Z in
     let resized := request (X.Configure w (resize_to width height))
                      (request (X.Configure frame (resize_to width height)) self) in
     (0 ≤ width)%Z ∧ (0 ≤ height)%Z
     ∧ OnMotionNotify e self = Ok resized
     ∧ geometry frame resized
       = (λ '(x, y, _, _), (x, y, width, height)) <$> geometry frame self
     ∧ geometry w resized
       = (λ '(x, y, _, _), (x, y, width, height)) <$> geometry w self).
Proof.
  intros Hget Hstart Hpos Hsize delta e.
  pose proof (Contains_of_get _ _ _ Hget) as Hc.
  split.
  - intros Hb1 x y. split.
    + unfold OnMotionNotify, subscript. simpl.
      rewrite Hc, Hget, Hstart. simpl. rewrite truthy_true by done.
      by rewrite Hpos.
    + rewrite geometry_configure, decide_True by done. simpl.
      by destruct (geometry frame self) as [[[[??]?]?]|].
  - intros Hb1 Hb3 size_delta width height resized.
    split; [subst width size_delta; simpl; lia|].
    split; [subst height size_delta; simpl; lia|].
    split.
    + unfold OnMotionNotify, subscript. simpl.
      rewrite Hc, Hget, Hstart. simpl. rewrite truthy_false by done.
      rewrite truthy_true by done. by rewrite Hsize.
    + unfold resized. rewrite !geometry_configure. simpl.
      rewrite (decide_True (P := frame = frame)) by done.
      rewrite (decide_True (P := w = w)) by done.
      split.
      * case_decide; by destruct (geometry frame self) as [[[[??]?]?]|].
      * case_decide; by destruct (geometry w self) as [[[[??]?]?]|].
Qed.

(** In the session: a drag that started with the frame at (10, 10), 100 by
    50.  A move by (+30, +5) puts the frame at (40, 15); a resize by
    (-200, +20) makes it 0 by 70. *)
Lemma motion_moves_or_resizes_session :
  geometry 6%positive Session.pressed = Some (10, 10, 100, 50)%Z
  ∧ OnMotionNotify (X.MotionNotify Session.editor 130 105 264) Session.pressed
    = Ok (request (X.Configure 6%positive (move_to 40 15)) Session.pressed)
  ∧ geometry 6%positive
      (request (X.Configure 6%positive (move_to 40 15)) Session.pressed)
    = Some (40, 15, 100, 50)%Z
  ∧ OnMotionNotify (X.MotionNotify Session.editor (-100) 120 1032) Session.pressed
    = Ok (request (X.Configure Session.editor (resize_to 0 70))
            (request (X.Configure 6%positive (resize_to 0 70)) Session.pressed)).
Proof.
  pose proof (motion_moves_or_resizes_from_drag_start
                Session.editor 6%positive 130 105 264
                (100, 100)%Z (10, 10)%Z (100, 50)%Z Session.pressed
                eq_refl eq_refl eq_refl eq_refl) as [Hmove _].
  pose proof (motion_moves_or_resizes_from_drag_start
                Session.editor 6%positive (-100) 120 1032
                (100, 100)%Z (10, 10)%Z (100, 50)%Z Session.pressed
                eq_refl eq_refl eq_refl eq_refl) as [_ Hresize].
  destruct Hmove as [Hm1 Hm2]; [done|].
  destruct Hresize as (_ & _ & Hr & _); [done..|].
  split; [reflexivity|]. split; [exact Hm1|]. split; [reflexivity|]. exact Hr.
Defined.

(** Claim C7, amended.  [OnMotionNotify] changes nothing when the event's
    window is not in the registry, and nothing when the window is registered,
    a drag-start pointer position is recorded, and neither the Button1 nor
    the Button3 bit is set in the event state.  The drag-start attributes are
    assigned by [OnButtonPress] on a registered client (pointer root
    position, frame position, frame size), [OnButtonRelease] leaves them as
    they are, and a MotionNotify with the Button1 bit set on any registered
    client moves that client's frame by them, whichever client the press was
    on. *)
Theorem motion_is_idle_without_client_or_button :
  (∀ (e : X.Event) (w : Window) (self : WindowManager),
      Attr.window e = Some w → Contains w self = false →
      OnMotionNotify e self = Ok self)
  ∧ (∀ (w : Window) (x_root y_root state : Z) (start : Z * Z)
       (self : WindowManager),
      Contains w self = true →
      drag_start_pos self = Some start →
      Z.land state X.Button1Mask = 0%Z →
      Z.land state X.Button3Mask = 0%Z →
      OnMotionNotify (X.MotionNotify w x_root y_root state) self = Ok self)
  ∧ (∀ (w frame : Window) (x_root y_root state button : Z) (a : X.Win)
       (self : WindowManager),
      Dict.get w (clients self) = Some frame →
      X.windows (display self) !! frame = Some a →
      ∃ self',
        OnButtonPress (X.ButtonPress w x_root y_root state button) self = Ok self'
        ∧ clients self' = clients self
        ∧ drag_start_pos self' = Some (x_root, y_root)
        ∧ drag_start_frame_pos self' = Some (X.win_x a, X.win_y a)
        ∧ drag_start_frame_size self' = Some (X.win_width a, X.win_height a))
  ∧ (∀ (e : X.Event) (self : WindowManager), OnButtonRelease e self = Ok self)
  ∧ (∀ (w frame : Window) (x_root y_root state : Z) (start pos : Z * Z)
       (self : WindowManager),
      Dict.get w (clients self) = Some frame →
      drag_start_pos self = Some start →
      drag_start_frame_pos self = Some pos →
      Z.land state X.Button1Mask ≠ 0%Z →
      OnMotionNotify (X.MotionNotify w x_root y_root state) self
      = Ok (request (X.Configure frame
                       (move_to (pos.1 + (x_root - start.1))
                                (pos.2 + (y_root - start.2)))) self)).
Proof.
  split; [|split; [|split; [|split]]].
  - intros e w self Hw Hc. unfold OnMotionNotify. rewrite Hw. simpl.
    by rewrite Hc.
  - intros w x_root y_root state start self Hc Hstart Hb1 Hb3.
    apply Contains_true in Hc as Hget. destruct Hget as [frame Hget].
    unfold OnMotionNotify, subscript. simpl. rewrite Hc, Hget, Hstart. simpl.
    by rewrite !truthy_false.
  - intros w frame x_root y_root state button a self Hget Ha.
    unfold OnButtonPress, subscript. simpl.
    rewrite (Contains_of_get _ _ _ Hget), Hget. simpl.
    unfold X.get_geometry. simpl. rewrite Ha. simpl. by eexists.
  - done.
  - intros w frame x_root y_root state start pos self Hget Hstart Hpos Hb1.
    unfold OnMotionNotify, subscript. simpl.
    rewrite (Contains_of_get _ _ _ Hget), Hget, Hstart. simpl.
    rewrite truthy_true by done. by rewrite Hpos.
Qed.

(** In the session: the press was on the editor and the button is released;
    a MotionNotify on the terminal with the Button1 bit still moves the
    terminal's frame. *)
Lemma motion_after_release_moves_another_client :
  ∃ released self',
    OnButtonRelease (X.ButtonRelease Session.editor 100 100 264 1) Session.pressed
      = Ok released
    ∧ Dict.get Session.terminal (clients released) = Some 7%positive
    ∧ OnMotionNotify (X.MotionNotify Session.terminal 130 105 264) released
      = Ok self'
    ∧ geometry 7%positive released = Some (10, 10, 100, 50)%Z
    ∧ geometry 7%positive self' = Some (40, 15, 100, 50)%Z.
Proof.
  eexists _, _. split; [reflexivity|]. split; [reflexivity|].
  split; [vm_compute; reflexivity|]. split; by vm_compute.
Qed.

(** In the session: motion on an unregistered window and motion without a
    button bit change nothing; a press on the terminal records the new
    start; the start recorded on the editor moves the terminal's frame. *)
Lemma motion_is_idle_session :
  OnMotionNotify (X.MotionNotify Session.popup 130 105 264) Session.pressed
    = Ok Session.pressed
  ∧ OnMotionNotify (X.MotionNotify Session.editor 130 105 8) Session.pressed
    = Ok Session.pressed
  ∧ (∃ self',
       OnButtonPress (X.ButtonPress Session.terminal 300 200 8 3) Session.pressed
         = Ok self'
       ∧ drag_start_pos self' = Some (300, 200)%Z)
  ∧ OnMotionNotify (X.MotionNotify Session.terminal 130 105 264) Session.pressed
    = Ok (request (X.Configure 7%positive (move_to 40 15)) Session.pressed).
Proof.
  destruct motion_is_idle_without_client_or_button
    as (Hout & Hidle & Hpress & _ & Hany).
  split; [by apply (Hout _ Session.popup)|].
  split; [by apply (Hidle _ _ _ _ (100, 100)%Z)|].
  split.
  - destruct (X.windows (display Session.pressed) !! 7%positive) as [a|] eqn:Ha;
      [|by vm_compute in Ha].
    destruct (Hpress Session.terminal 7%positive 300%Z 200%Z 8%Z 3%Z a
                Session.pressed eq_refl Ha) as (self' & H1 & _ & H2 & _).
    exists self'. split; [exact H1|exact H2].
  - by apply (Hany Session.terminal 7%positive 130%Z 105%Z 264%Z
                (100, 100)%Z (10, 10)%Z Session.pressed).
Defined.

(** Claim C8, amended.  [OnConfigureRequest] builds one set of changes from
    the event's seven fields (x, y, width, height, border width, sibling,
    stack mode), as they stand in the event, and configures the client's
    frame with all seven when and only when the client is in the registry,
    and then the client with all seven: these are the only requests it
    issues, and afterwards the client, and the frame when there is one, have
    the requested position, size and border width. *)
Theorem configure_request_passes_all_fields_to_client_and_frame
    (p w : Window) (x y width height border_width : Z)
    (above : option Window) (detail value_mask : Z) (self : WindowManager) :
  let e := X.ConfigureRequest p w x y width height border_width above detail
             value_mask in
  let changes := requested_changes x y width height border_width above detail in
  OnConfigureRequest e self
  = Ok (request (X.Configure w changes)
          match Dict.get w (clients self) with
          | Some frame => request (X.Configure frame changes) self
          | None => self
          end)
  ∧ (∀ self', OnConfigureRequest e self = Ok self' →
       X.log (display self')
       = X.log (display self)
         ++ match Dict.get w (clients self) with
            | Some frame => [X.Configure frame changes]
            | None => []
            end
         ++ [X.Configure w changes])
  ∧ (∀ self' k a', OnConfigureRequest e self = Ok self' →
       k = w ∨ Dict.get w (clients self) = Some k →
       X.windows (display self') !! k = Some a' →
       X.win_x a' = x ∧ X.win_y a' = y ∧ X.win_width a' = width
       ∧ X.win_height a' = height ∧ X.win_border_width a' = border_width).
Proof.
  intros e changes.
  assert (He : OnConfigureRequest e self
               = Ok (request (X.Configure w changes)
                       match Dict.get w (clients self) with
                       | Some frame => request (X.Configure frame changes) self
                       | None => self
                       end)).
  { unfold OnConfigureRequest, subscript, Contains, Dict.mem. simpl.
    destruct (Dict.get w (clients self)) as [frame|] eqn:Hget.
    - by rewrite bool_decide_eq_true_2.
    - rewrite bool_decide_eq_false_2; [done|]. by intros [? ?]. }
  split; [done|]. rewrite He. split.
  - intros self' [= <-]. destruct (Dict.get w (clients self)); simpl; [|done].
    by rewrite <- app_assoc.
  - intros self' k a' [= <-] Hk. simpl.
    destruct (Dict.get w (clients self)) as [frame|] eqn:Hget; simpl.
    + destruct (decide (k = w)) as [->|Hkw].
      * rewrite lookup_alter_eq.
        destruct (alter _ frame _ !! w); [|done]. by intros [= <-].
      * destruct Hk as [?|[= ->]]; [done|].
        rewrite lookup_alter_ne by done. rewrite lookup_alter_eq.
        destruct (X.windows (display self) !! k); [|done]. by intros [= <-].
    + destruct Hk as [->|?]; [|done]. rewrite lookup_alter_eq.
      destruct (X.windows (display self) !! w); [|done]. by intros [= <-].
Qed.

(** In the session: a ConfigureRequest for the framed editor with border
    width 7 changes the border of the editor's frame from 3 to 7. *)
Lemma configure_request_changes_frame_border :
  ∃ self' before after,
    OnConfigureRequest
      (X.ConfigureRequest Session.root_window Session.editor
         20 30 200 120 7 None X.Above 16) Session.three_clients = Ok self'
    ∧ Dict.get Session.editor (clients Session.three_clients) = Some 6%positive
    ∧ X.windows (display Session.three_clients) !! 6%positive = Some before
    ∧ X.windows (display self') !! 6%positive = Some after
    ∧ X.win_border_width before = BORDER_WIDTH
    ∧ X.win_border_width after = 7%Z.
Proof.
  eexists _, _, _. split; [reflexivity|]. split; [reflexivity|].
  split; [vm_compute; reflexivity|]. split; [vm_compute; reflexivity|].
  split; reflexivity.
Qed.

(** In the session: the two requests a ConfigureRequest for the framed
    editor leads to. *)
Lemma configure_request_session :
  ∃ self',
    OnConfigureRequest
      (X.ConfigureRequest Session.root_window Session.editor
         20 30 200 120 7 None X.Above 16) Session.three_clients = Ok self'
    ∧ X.log (display self')
      = X.log (display Session.three_clients)
        ++ [X.Configure 6%positive (requested_changes 20 30 200 120 7 None X.Above);
            X.Configure Session.editor
              (requested_changes 20 30 200 120 7 None X.Above)].
Proof.
  destruct (configure_request_passes_all_fields_to_client_and_frame
              Session.root_window Session.editor 20 30 200 120 7 None X.Above 16
              Session.three_clients) as (Heq & Hlog & _).
  eexists. split; [exact Heq|]. exact (Hlog _ Heq).
Defined.

(** ** Key presses *)

Lemma pressed_with_mod1_clear name keysym w x_root y_root state keycode self :
  Z.land state X.Mod1Mask = 0%Z →
  pressed_with_mod1 name keysym (X.KeyPress w x_root y_root state keycode) self
  = Ok false.
Proof.
  intros H. unfold pressed_with_mod1. simpl. by rewrite truthy_false.
Qed.

Lemma pressed_with_mod1_set name keysym w x_root y_root state keycode self :
  Z.land state X.Mod1Mask ≠ 0%Z →
  pressed_with_mod1 name keysym (X.KeyPress w x_root y_root state keycode) self
  = Xlib.read Xlib.package_names name
    ≫= λ _, Ok (keycode =? X.keysym_to_keycode keysym (display self))%Z.
Proof.
  intros H. unfold pressed_with_mod1. simpl. by rewrite truthy_true.
Qed.

Lemma OnKeyPress_plain w x_root y_root state keycode self :
  Z.land state X.Mod1Mask = 0%Z →
  OnKeyPress (X.KeyPress w x_root y_root state keycode) self = Ok self.
Proof.
  intros H. unfold OnKeyPress. by rewrite !pressed_with_mod1_clear.
Qed.

Lemma OnKeyPress_mod1 w x_root y_root state keycode self :
  Z.land state X.Mod1Mask ≠ 0%Z →
  OnKeyPress (X.KeyPress w x_root y_root state keycode) self
  = Raise AttributeError.
Proof.
  intros H. unfold OnKeyPress.
  rewrite (pressed_with_mod1_set "XK_F4") by done.
  by rewrite Xlib_XK_F4.
Qed.

(** Claim C9, as the code has it.  For a KeyPress with the Mod1 bit set, the
    cycle key included, the first test of [OnKeyPress] evaluates
    [Xlib.XK_F4], which the package does not bind: the test, the handler
    and the dispatcher raise AttributeError, whatever the keycode, the
    window and the registry are.  The second test, for the cycle key, is
    not reached; no frame is raised and the input focus is not set. *)
Theorem cycle_key_raises_before_the_search
    (w : Window) (x_root y_root state keycode : Z) (self : WindowManager) :
  Z.land state X.Mod1Mask ≠ 0%Z →
  pressed_with_mod1 "XK_F4" X.XK_F4
    (X.KeyPress w x_root y_root state keycode) self = Raise AttributeError
  ∧ OnKeyPress (X.KeyPress w x_root y_root state keycode) self
    = Raise AttributeError
  ∧ dispatch (X.KeyPress w x_root y_root state keycode) self
    = Raise AttributeError.
Proof.
  intros H. split; [|split].
  - rewrite (pressed_with_mod1_set "XK_F4") by done.
  by rewrite Xlib_XK_F4.
  - by apply OnKeyPress_mod1.
  - change (dispatch (X.KeyPress w x_root y_root state keycode) self)
      with (OnKeyPress (X.KeyPress w x_root y_root state keycode) self).
    by apply OnKeyPress_mod1.
Qed.

(** In the session: Alt+Tab on the editor, with editor, terminal and clock
    in the registry, raises. *)
Lemma cycle_key_session :
  Dict.keys (clients Session.three_clients)
  = [Session.editor; Session.terminal; Session.clock]
  ∧ X.keysym_to_keycode X.XK_Tab (display Session.three_clients) = 23%Z
  ∧ OnKeyPress (X.KeyPress Session.editor 0 0 8 23) Session.three_clients
    = Raise AttributeError.
Proof.
  split; [reflexivity|]. split; [reflexivity|].
  by apply (cycle_key_raises_before_the_search Session.editor 0 0 8 23
              Session.three_clients).
Defined.

(** ** Coalescing of motion events *)

Lemma skip_pending_motion e m q :
  is_motion m →
  skip_pending e (m :: q) = skip_pending m q.
Proof.
  destruct m; try done. intros _. simpl. by rewrite bool_decide_eq_true_2.
Qed.

Lemma skip_pending_other e e' q :
  X.type e' ≠ X.Code.MotionNotify → skip_pending e (e' :: q) = Ok (e', q).
Proof.
  intros Ht. simpl. apply Z.eqb_neq in Ht. by rewrite Ht.
Qed.

Lemma skip_pending_all_motion q : ∀ e latest,
  Forall is_motion q → last q = Some latest →
  skip_pending e q = Ok (latest, []).
Proof.
  induction q as [|m q IH]; intros e latest Hall Hlast; [done|].
  apply Forall_cons in Hall as [Hm Hall].
  rewrite skip_pending_motion by done.
  destruct q as [|m' q].
  - injection Hlast as <-. done.
  - by apply IH.
Qed.

(** Claim C5, as the code has it.  The inner loop of the MotionNotify case
    goes through the queue past every MotionNotify, whatever its window, and
    stops at the first event of another kind, which it has taken off the
    queue and which becomes the argument of [OnMotionNotify]; when only
    MotionNotify events are queued, the last of them is the argument.  In the
    session, with a MotionNotify and a MapRequest for the terminal queued,
    one turn of the main loop empties the queue, issues no request and
    returns with the terminal out of the registry: [OnMapRequest] is not
    called, while a turn on the MapRequest alone is that call. *)
Theorem motion_coalescing_swallows_the_next_event :
  (∀ (e e' : X.Event) (motions rest : list X.Event),
      Forall is_motion motions →
      X.type e' ≠ X.Code.MotionNotify →
      skip_pending e (motions ++ e' :: rest) = Ok (e', rest))
  ∧ (∀ (e latest : X.Event) (motions : list X.Event),
      Forall is_motion motions →
      last motions = Some latest →
      skip_pending e motions = Ok (latest, []))
  ∧ (let queue := [X.MotionNotify Session.editor 130 105 264;
                   X.MapRequest Session.root_window Session.terminal] in
     ∃ self',
       Run_iteration (Session.manager queue) = Ok self'
       ∧ X.pending (display self') = []
       ∧ Contains Session.terminal self' = false
       ∧ X.log (display self') = [])
  ∧ Run_iteration
      (Session.manager [X.MapRequest Session.root_window Session.terminal])
    = OnMapRequest (X.MapRequest Session.root_window Session.terminal)
        (Session.manager []).
Proof.
  split; [|split; [|split]].
  - intros e e' motions rest Hall Ht. revert e.
    induction motions as [|m motions IH]; intros e; simpl app.
    + by apply skip_pending_other.
    + apply Forall_cons in Hall as [Hm Hall].
      rewrite skip_pending_motion by done. by apply IH.
  - intros e latest motions Hall Hlast. by apply skip_pending_all_motion.
  - eexists. split; [vm_compute; reflexivity|]. by vm_compute.
  - reflexivity.
Qed.

(** In the session: with two more motions, a MapRequest and a further motion
    queued, the loop ends holding the MapRequest. *)
Lemma motion_coalescing_session :
  skip_pending (X.MotionNotify Session.editor 110 100 264)
    ([X.MotionNotify Session.editor 120 100 264;
      X.MotionNotify Session.terminal 130 105 264]
     ++ X.MapRequest Session.root_window Session.clock
        :: [X.MotionNotify Session.editor 140 100 264])
  = Ok (X.MapRequest Session.root_window Session.clock,
        [X.MotionNotify Session.editor 140 100 264]).
Proof.
  apply (proj1 motion_coalescing_swallows_the_next_event).
  - repeat constructor.
  - done.
Defined.

(** ** The detection probe *)

(** Claim C10, as the code has it.  [OnWMDetected] fails its assertion on
    every error whose code is not BadAccess.  On BadAccess with the lock
    free it takes the lock, sets the flag, releases the lock and returns 0.
    On BadAccess with the lock held it never returns; [Run] holds the lock
    while it waits in [sync], so on a display where another client holds
    SubstructureRedirect on the root, the initialization of [Run] never
    returns. *)
Theorem wm_detected_handler_blocks_inside_the_probe :
  (∀ (e : X.XError) (self : WindowManager),
      X.error_code e ≠ X.BadAccess →
      OnWMDetected e self = Raise AssertionError)
  ∧ (∀ (e : X.XError) (self : WindowManager),
      X.error_code e = X.BadAccess →
      wm_detected_mutex self = false →
      OnWMDetected e self = Ok (0%Z, with_wm_detected true self))
  ∧ (∀ (e : X.XError) (self : WindowManager),
      X.error_code e = X.BadAccess →
      wm_detected_mutex self = true →
      OnWMDetected e self = Blocks OnLock)
  ∧ (∀ (self : WindowManager),
      wm_detected_mutex self = false →
      X.errors (display self) = [] →
      root self ∈ X.redirect_taken (display self) →
      Run_initialization self = Blocks OnLock).
Proof.
  split; [|split; [|split]].
  - intros e self Hne. unfold OnWMDetected.
    apply Z.eqb_neq in Hne. by rewrite Hne.
  - intros e self He Hfree. unfold OnWMDetected, acquire.
    rewrite He, Z.eqb_refl, Hfree. simpl.
    destruct self; simpl in *. by subst.
  - intros e self He Hheld. unfold OnWMDetected, acquire.
    by rewrite He, Z.eqb_refl, Hheld.
  - intros self Hfree Hnone Htaken. unfold Run_initialization, acquire.
    rewrite Hfree. simpl. unfold sync. simpl.
    rewrite decide_True by (split; [done|exact Htaken]).
    rewrite Hnone. simpl. done.
Qed.

(** In the session with another window manager running: the initialization
    of [Run] never returns; an error other than BadAccess fails the
    assertion. *)
Lemma probe_with_rival_session :
  Run_initialization (Session.rival (Session.manager [])) = Blocks OnLock
  ∧ OnWMDetected {| X.error_code := X.BadWindowCode; X.request_code := 2;
                    X.resourceid := 1 |} (Session.manager [])
    = Raise AssertionError.
Proof.
  destruct wm_detected_handler_blocks_inside_the_probe as (Hassert & _ & _ & Hrun).
  split.
  - apply Hrun; [reflexivity..|]. apply (bool_decide_unpack _). by vm_compute.
  - by apply Hassert.
Defined.

(** * Further properties *)

(** ** [Frame], in full *)

(** X5.  [Frame] returns exactly when the window is in the registry already,
    or the flag is set and the window, one of the server's, sets
    override-redirect or is not viewable; a call that returns has changed
    nothing.  On a window the server does not have the call raises
    BadWindow, and every other call raises AttributeError: no call of
    [Frame] adds to the registry or issues a request. *)
Theorem Frame_returns_only_unchanged
    (w : Window) (b : bool) (self : WindowManager) :
  (∀ self', Frame w b self = Ok self' → self' = self)
  ∧ ((∃ self', Frame w b self = Ok self')
     ↔ Contains w self = true
       ∨ (b = true ∧ takeover_candidate w self = false
          ∧ is_Some (X.windows (display self) !! w)))
  ∧ (Contains w self = false →
     X.windows (display self) !! w = None →
     Frame w b self = Raise BadWindow)
  ∧ (Contains w self = false →
     is_Some (X.windows (display self) !! w) →
     b = false ∨ takeover_candidate w self = true →
     Frame w b self = Raise AttributeError).
Proof.
  split; [|split; [|split]].
  - by intros self' [-> _]%Frame_Ok_inv.
  - split.
    + intros [self' H]. by destruct (Frame_Ok_inv _ _ _ _ H) as [_ ?].
    + intros [Hc|(-> & Hb & [a Hw])].
      * exists self. by apply Frame_contained.
      * exists self. destruct (Contains w self) eqn:Hc.
        -- by apply Frame_contained.
        -- by eapply Frame_turned_away.
  - intros Hc Hw. rewrite Frame_outcome, Hc.
    unfold X.get_attributes. by rewrite Hw.
  - intros Hc [a Hw] Hb. by eapply Frame_raises.
Qed.

(** ** The initialization of [Run] *)

(** The startup loop, [for w in top_level_windows: self.Frame(w, True)]. *)
Lemma startup_framing_inv l : ∀ self self',
  for_each (λ self w, Frame w true self) self l = Ok self' →
  self' = self
  ∧ Forall (λ w, Contains w self = true ∨ takeover_candidate w self = false) l.
Proof.
  induction l as [|w l IH]; intros self self'; simpl.
  - by intros [= <-].
  - destruct (Frame w true self) as [s1| |] eqn:H1; simpl; [|done..].
    destruct (Frame_Ok_inv _ _ _ _ H1) as [-> Hw].
    intros Hrest. destruct (IH _ _ Hrest) as [-> Hall]. split; [done|].
    apply Forall_cons. split; [|done].
    destruct Hw as [?|(_ & ? & _)]; auto.
Qed.


Lemma startup_framing_raises l self w :
  Forall (λ w, is_Some (X.windows (display self) !! w)) l →
  w ∈ l → Contains w self = false → takeover_candidate w self = true →
  for_each (λ self w, Frame w true self) self l = Raise AttributeError.
Proof.
  induction l as [|w' l IH]; simpl.
  - intros _ Hin. by apply elem_of_nil in Hin.
  - intros [[a Hw'] Hlive]%Forall_cons Hin Hc Hb.
    destruct (Frame w' true self) as [s1|e|x] eqn:H1; simpl.
    + destruct (Frame_Ok_inv _ _ _ _ H1) as [-> Hret].
      apply elem_of_cons in Hin as [->|Hin]; [|by apply IH].
      destruct Hret as [?|(_ & ? & _)]; congruence.
    + revert H1. rewrite Frame_outcome. unfold X.get_attributes. rewrite Hw'.
      destruct (Contains w' self); [done|]. by destruct (true && _).
    + revert H1. rewrite Frame_outcome. unfold X.get_attributes. rewrite Hw'.
      destruct (Contains w' self); [done|]. by destruct (true && _).
Qed.

Lemma sync_OnWMDetected self self' :
  X.error_handler (display self) = X.HandlerOnWMDetected →
  wm_detected_mutex self = true →
  sync self = Ok self' →
  X.errors (display self) = [] ∧ self' = self.
Proof.
  intros Hh Hm. unfold sync.
  destruct (X.errors (display self)) as [|e es] eqn:He; simpl.
  - intros [= <-]. split; [done|]. destruct self as [d ????????]. simpl in *.
    destruct d. simpl in *. by subst.
  - unfold call_error_handler. simpl. rewrite Hh.
    unfold OnWMDetected, acquire. simpl. rewrite Hm.
    by destruct (negb _).
Qed.

Lemma query_tree_child w d r p children k :
  X.query_tree w d = Ok (r, p, children) →
  k ∈ children
  ↔ ∃ a, X.windows d !! k = Some a ∧ X.win_parent a = Some w.
Proof.
  unfold X.query_tree. destruct (X.windows d !! w); [|done].
  intros [= _ _ <-]. rewrite list_elem_of_fmap. split.
  - intros ([k' a] & -> & Hin). apply elem_of_map_to_list in Hin.
    apply map_lookup_filter_Some in Hin as [Hin Hp]. by exists a.
  - intros (a & Hk & Hp). exists (k, a). split; [done|].
    apply elem_of_map_to_list. by apply map_lookup_filter_Some.
Qed.

Lemma query_tree_children w d r p children :
  X.query_tree w d = Ok (r, p, children) →
  Forall (λ k, is_Some (X.windows d !! k)) children.
Proof.
  intros Hq. apply Forall_forall. intros k Hk.
  apply (query_tree_child _ _ _ _ _ _ Hq) in Hk as (a & Ha & _). by eexists.
Qed.

Lemma Run_initialization_free self :
  wm_detected_mutex self = false →
  Run_initialization self
  = sync (probing self) ≫= λ probed,
      if wm_detected probed then Ok (false, release probed) else
      let ready := request X.GrabServer
                     (set_error_handler X.HandlerOnXError (release probed)) in
      X.query_tree (root ready) (display ready) ≫= λ '(_, _, children),
        for_each (λ self w, Frame w true self) ready children ≫= λ framed,
          Ok (true, request X.UngrabServer framed).
Proof. intros Hm. unfold Run_initialization, acquire. by rewrite Hm. Qed.

Lemma probing_errors self :
  X.errors (display (probing self)) = [] →
  X.errors (display self) = []
  ∧ (root self ∉ X.redirect_taken (display self)).
Proof.
  simpl. case_decide as Hr.
  - by destruct (X.errors (display self)).
  - intros He. split; [done|]. intros Hin. apply Hr. by split.
Qed.

Lemma sync_quiet self :
  X.errors (display self) = [] → sync self = Ok self.
Proof.
  intros He. unfold sync. rewrite He. simpl.
  destruct self as [d ????????]. destruct d. simpl in *. by subst.
Qed.

Lemma Run_initialization_quiet self :
  wm_detected_mutex self = false →
  X.errors (display (probing self)) = [] →
  Run_initialization self
  = X.query_tree (root self) (display (grabbed self)) ≫= λ '(_, _, children),
      for_each (λ self w, Frame w true self) (grabbed self) children
      ≫= λ framed, Ok (true, request X.UngrabServer framed).
Proof.
  intros Hm He. rewrite Run_initialization_free by done.
  by rewrite (sync_quiet _ He).
Qed.

Lemma Run_initialization_inv self b self' :
  Run_initialization self = Ok (b, self') →
  wm_detected_mutex self = false
  ∧ X.errors (display self) = []
  ∧ (root self ∉ X.redirect_taken (display self))
  ∧ b = true
  ∧ self' = request X.UngrabServer (grabbed self)
  ∧ ∃ r p children,
      X.query_tree (root self) (display (grabbed self)) = Ok (r, p, children)
      ∧ Forall (λ w, Contains w self = true
                     ∨ takeover_candidate w (grabbed self) = false) children.
Proof.
  destruct (wm_detected_mutex self) eqn:Hm.
  { unfold Run_initialization, acquire. by rewrite Hm. }
  rewrite Run_initialization_free by done.
  destruct (sync (probing self)) as [s2| |] eqn:Hs; simpl; [|done..].
  apply sync_OnWMDetected in Hs as [He ->]; [|reflexivity..].
  destruct (probing_errors _ He) as [He0 Hnot].
  change (wm_detected (probing self)) with false. cbv iota.
  fold (grabbed self). change (root (grabbed self)) with (root self).
  intros H.
  change (X.send X.GrabServer _) with (display (grabbed self)) in H.
  destruct (X.query_tree (root self) (display (grabbed self)))
    as [[[r p] children]| |] eqn:Hq; simpl in H; [|done..].
  destruct (for_each _ (grabbed self) children) as [framed| |] eqn:Hf;
    simpl in H; [|done..].
  destruct (startup_framing_inv _ _ _ Hf) as [-> Hall].
  injection H as <- <-. repeat (split; [done|]). by exists r, p, children.
Qed.

(** The event selection on the root changes no window's place, map flag or
    override-redirect flag, so that the same windows are viewable. *)
Lemma ancestors_mapped_event_mask (ws : gmap Window X.Win) (m : Z)
    (r : Window) : ∀ n p,
  X.ancestors_mapped n (alter (X.set_event_mask m) r ws) p
  = X.ancestors_mapped n ws p.
Proof.
  induction n as [|n IH]; intros [q|]; simpl; try done.
  destruct (decide (r = q)) as [->|Hne].
  - rewrite lookup_alter_eq. destruct (ws !! q) as [a|]; simpl; [|done].
    by rewrite IH.
  - rewrite lookup_alter_ne by done. destruct (ws !! q) as [a|]; [|done].
    by rewrite IH.
Qed.

Lemma size_alter_event_mask (ws : gmap Window X.Win) (m : Z) (r : Window) :
  size (alter (X.set_event_mask m) r ws) = size ws.
Proof.
  rewrite <- !(size_dom (D := gset Window)). by rewrite dom_alter_L.
Qed.

Lemma grabbed_windows self :
  X.windows (display (grabbed self)) = X.windows (display self)
  ∨ X.windows (display (grabbed self))
    = alter (X.set_event_mask (Z.lor X.SubstructureRedirectMask
                                 X.SubstructureNotifyMask))
        (root self) (X.windows (display self)).
Proof. simpl. case_decide; [by left|by right]. Qed.

Lemma grabbed_live self k :
  is_Some (X.windows (display (grabbed self)) !! k)
  ↔ is_Some (X.windows (display self) !! k).
Proof.
  destruct (grabbed_windows self) as [->| ->]; [done|].
  destruct (decide (root self = k)) as [<-|Hne].
  - rewrite lookup_alter_eq. apply fmap_is_Some.
  - by rewrite lookup_alter_ne.
Qed.

Lemma grabbed_parent self k :
  X.win_parent <$> X.windows (display (grabbed self)) !! k
  = X.win_parent <$> X.windows (display self) !! k.
Proof.
  destruct (grabbed_windows self) as [->| ->]; [done|].
  destruct (decide (root self = k)) as [<-|Hne].
  - rewrite lookup_alter_eq. by destruct (X.windows (display self) !! root self).
  - by rewrite lookup_alter_ne.
Qed.

Lemma grabbed_takeover_candidate self k :
  takeover_candidate k (grabbed self) = takeover_candidate k self.
Proof.
  unfold takeover_candidate, X.get_attributes.
  destruct (grabbed_windows self) as [->| ->]; [done|].
  destruct (decide (root self = k)) as [<-|Hne].
  - rewrite lookup_alter_eq.
    destruct (X.windows (display self) !! root self) as [a|]; simpl; [|done].
    unfold X.map_state. simpl.
    by rewrite size_alter_event_mask, ancestors_mapped_event_mask.
  - rewrite lookup_alter_ne by done.
    destruct (X.windows (display self) !! k) as [a|]; simpl; [|done].
    unfold X.map_state.
    by rewrite size_alter_event_mask, ancestors_mapped_event_mask.
Qed.



(** X2.  Whenever the initialization of [Run] returns, it returns into the
    main loop, and it has framed nothing: the flag is false, the lock is
    free, the logging handler is installed, the registry, the save-set and
    every window but the root are as before, and the requests it has issued
    are the event selection on the root, GrabServer and UngrabServer. *)
Theorem Run_initialization_returns_into_the_loop
    (self self' : WindowManager) (b : bool) :
  Run_initialization self = Ok (b, self') →
  b = true
  ∧ wm_detected self' = false
  ∧ wm_detected_mutex self' = false
  ∧ X.error_handler (display self') = X.HandlerOnXError
  ∧ clients self' = clients self
  ∧ X.save_set (display self') = X.save_set (display self)
  ∧ (∀ k, k ≠ root self →
       X.windows (display self') !! k = X.windows (display self) !! k)
  ∧ X.log (display self')
    = X.log (display self)
      ++ [X.ChangeAttributes (root self)
            (Z.lor X.SubstructureRedirectMask X.SubstructureNotifyMask);
          X.GrabServer; X.UngrabServer].
Proof.
  intros H.
  destruct (Run_initialization_inv _ _ _ H)
    as (Hm & He & Hr & -> & -> & _).
  repeat (split; [done|]). split.
  - intros k Hk.
    change (X.windows (display (request X.UngrabServer (grabbed self))))
      with (X.windows (display (grabbed self))).
    destruct (grabbed_windows self) as [->| ->]; [done|].
    by rewrite lookup_alter_ne by (by apply not_eq_sym).
  - simpl. by rewrite <- !app_assoc.
Qed.

(** In the session, at night: the initialization goes into the loop with an
    empty registry, the server grabbed and released. *)
Lemma Run_initialization_session :
  ∃ self',
    Run_initialization Session.night = Ok (true, self')
    ∧ clients self' = []
    ∧ X.log (display self')
      = [X.ChangeAttributes Session.root_window 1572864; X.GrabServer;
         X.UngrabServer].
Proof.
  assert (∃ self', Run_initialization Session.night = Ok (true, self'))
    as [self' H] by (vm_compute; eauto).
  destruct (Run_initialization_returns_into_the_loop _ _ _ H)
    as (_ & _ & _ & _ & Hc & _ & _ & Hlog).
  exists self'. split; [exact H|]. split; [exact Hc|exact Hlog].
Defined.

(** The root is mapped and has no parent. *)
Lemma takeover_candidate_top_level w self a r :
  X.windows (display self) !! root self = Some r →
  X.win_parent r = None → X.win_mapped r = true →
  X.windows (display self) !! w = Some a →
  X.win_parent a = Some (root self) →
  X.win_mapped a = true → X.win_override_redirect a = false →
  takeover_candidate w self = true.
Proof.
  intros Hr Hrp Hrm Hw Hp Hm Ho.
  unfold takeover_candidate, X.get_attributes. rewrite Hw. simpl.
  rewrite Ho. simpl. unfold X.map_state. rewrite Hm, Hp.
  destruct (size (X.windows (display self))) as [|n] eqn:Hs.
  { apply map_size_empty_iff in Hs. rewrite Hs in Hw. by rewrite lookup_empty in Hw. }
  simpl. rewrite Hr, Hrm, Hrp. simpl. by destruct n.
Qed.

(** X4.  With the lock free, no error waiting and the root not taken: when
    the root is mapped and has no parent, and one of its children is
    mapped, does not set override-redirect and is not in the registry, the
    initialization of [Run] raises AttributeError.  [Frame] raises it on
    that child in the state the startup loop runs in, where the last
    request sent is GrabServer: UngrabServer is not sent. *)
Theorem startup_raises_on_a_visible_top_level_window
    (self : WindowManager) (w : Window) (a r : X.Win) :
  wm_detected_mutex self = false →
  X.errors (display self) = [] →
  root self ∉ X.redirect_taken (display self) →
  X.windows (display self) !! root self = Some r →
  X.win_parent r = None → X.win_mapped r = true →
  X.windows (display self) !! w = Some a →
  X.win_parent a = Some (root self) →
  X.win_mapped a = true → X.win_override_redirect a = false →
  Contains w self = false →
  Run_initialization self = Raise AttributeError
  ∧ Frame w true (grabbed self) = Raise AttributeError
  ∧ last (X.log (display (grabbed self))) = Some X.GrabServer.
Proof.
  intros Hm He Hr Hroot Hrp Hrm Hw Hp Hwm Ho Hc.
  pose proof (takeover_candidate_top_level _ _ _ _ Hroot Hrp Hrm Hw Hp Hwm Ho)
    as Hcand.
  assert (is_Some (X.windows (display (grabbed self)) !! w)) as [ag Hag].
  { apply grabbed_live. by eexists. }
  assert (Frame w true (grabbed self) = Raise AttributeError) as HF.
  { apply (Frame_raises w true ag); [done|done|].
    right. by rewrite grabbed_takeover_candidate. }
  split; [|split; [exact HF|]].
  - assert (Hq : X.errors (display (probing self)) = []).
    { simpl. rewrite decide_False; [done|]. by intros [_ ?]. }
    rewrite (Run_initialization_quiet _ Hm Hq).
    assert (is_Some (X.windows (display (grabbed self)) !! root self))
      as [rg Hrg] by (apply grabbed_live; by eexists).
    destruct (X.query_tree (root self) (display (grabbed self)))
      as [[[r0 p] children]| |] eqn:Hqt.
    2,3: revert Hqt; unfold X.query_tree; by rewrite Hrg.
    simpl. rewrite (startup_framing_raises children (grabbed self) w); [done| | |done|].
    + by eapply query_tree_children.
    + apply (query_tree_child _ _ _ _ _ _ Hqt). exists ag. split; [done|].
      pose proof (grabbed_parent self w) as Hg. rewrite Hag, Hw in Hg.
      simpl in Hg. injection Hg as Hg. by rewrite Hg.
    + by rewrite grabbed_takeover_candidate.
  - simpl. by rewrite last_snoc.
Qed.

(** In the session: the editor is mapped on the root when [Run] starts, and
    the initialization raises. *)
Lemma startup_raises_on_the_editor :
  Run_initialization (Session.manager []) = Raise AttributeError.
Proof.
  refine (proj1 (startup_raises_on_a_visible_top_level_window
            (Session.manager []) Session.editor
            (Session.top_level false) Session.the_root
            eq_refl eq_refl _ eq_refl eq_refl eq_refl eq_refl eq_refl eq_refl
            eq_refl eq_refl)).
  apply (bool_decide_unpack _). by vm_compute.
Defined.

(** ** Unframing, in full *)

(** X6.  [Unframe] on a registered client returns after exactly the four
    requests of an unframing; the registry loses that key and keeps the
    others, their frames and their order; the frame is gone from the server
    and the client from the save-set; a second [Unframe] changes nothing;
    the drag-start attributes are left as they are. *)
Theorem Unframe_takes_one_entry_out
    (w frame : Window) (self : WindowManager) :
  Dict.get w (clients self) = Some frame →
  ∃ self' : WindowManager,
    Unframe w self = Ok self'
    ∧ X.log (display self')
      = X.log (display self) ++ unframing_requests w frame self
    ∧ Dict.keys (clients self')
      = filter (λ k, k ≠ w) (Dict.keys (clients self))
    ∧ (∀ w', w' ≠ w →
         Dict.get w' (clients self') = Dict.get w' (clients self))
    ∧ X.windows (display self') !! frame = None
    ∧ (w ∉ X.save_set (display self'))
    ∧ Unframe w self' = Ok self'
    ∧ drag_start_pos self' = drag_start_pos self
    ∧ drag_start_frame_pos self' = drag_start_frame_pos self
    ∧ drag_start_frame_size self' = drag_start_frame_size self.
Proof.
  intros Hget.
  exists (with_clients (Dict.del w (clients self))
            (request (X.Destroy frame)
               (request (X.RemoveFromSaveSet w)
                  (request (X.Reparent w (root self) 0 0)
                     (request (X.Unmap frame) self))))).
  split.
  { unfold Unframe, subscript. by rewrite (Contains_of_get _ _ _ Hget), Hget. }
  split.
  { simpl. unfold unframing_requests. by rewrite <- !app_assoc. }
  split; [apply Dict_keys_del|].
  split; [intros w' Hne; by apply Dict_get_del_ne|].
  split; [apply destroy_win_self|].
  split.
  { simpl. intros [_ Hn]%elem_of_difference. apply Hn. by apply elem_of_singleton. }
  split; [|done].
  unfold Unframe.
  assert (Contains w (with_clients (Dict.del w (clients self))
            (request (X.Destroy frame)
               (request (X.RemoveFromSaveSet w)
                  (request (X.Reparent w (root self) 0 0)
                     (request (X.Unmap frame) self))))) = false) as ->; [|done].
  apply Contains_false. apply Dict_get_del_eq.
Qed.

(** In the session: unframing the editor leaves terminal and clock. *)
Lemma Unframe_session :
  ∃ self',
    Unframe Session.editor Session.three_clients = Ok self'
    ∧ Dict.keys (clients self') = [Session.terminal; Session.clock].
Proof.
  destruct (Unframe_takes_one_entry_out Session.editor 6%positive
              Session.three_clients eq_refl) as (self' & HU & _ & Hk & _).
  exists self'. split; [exact HU|]. rewrite Hk. reflexivity.
Defined.

(** ** Keys *)

(** X10.  A KeyPress without the Mod1 bit changes nothing, in the handler
    and through the dispatcher, and so does a KeyRelease.  A KeyPress the
    dispatcher returns from had the Mod1 bit clear and has changed
    nothing: no key press closes a window, raises a frame or moves the
    input focus. *)
Theorem key_presses_change_nothing
    (w : Window) (x_root y_root state keycode : Z) (self : WindowManager) :
  (Z.land state X.Mod1Mask = 0%Z →
     OnKeyPress (X.KeyPress w x_root y_root state keycode) self = Ok self
     ∧ dispatch (X.KeyPress w x_root y_root state keycode) self = Ok self)
  ∧ dispatch (X.KeyRelease w x_root y_root state keycode) self = Ok self
  ∧ (∀ self',
       dispatch (X.KeyPress w x_root y_root state keycode) self = Ok self' →
       Z.land state X.Mod1Mask = 0%Z ∧ self' = self).
Proof.
  change (dispatch (X.KeyPress w x_root y_root state keycode) self)
    with (OnKeyPress (X.KeyPress w x_root y_root state keycode) self).
  split; [|split; [done|]].
  - intros H. by rewrite OnKeyPress_plain.
  - intros self'. destruct (decide (Z.land state X.Mod1Mask = 0%Z)) as [H|H].
    + rewrite OnKeyPress_plain by done. by intros [= <-].
    + by rewrite OnKeyPress_mod1.
Qed.

(** In the session: Tab without Alt. *)
Lemma plain_tab_session :
  OnKeyPress (X.KeyPress Session.editor 0 0 0 23) Session.three_clients
  = Ok Session.three_clients.
Proof.
  exact (proj1 (proj1 (key_presses_change_nothing Session.editor 0 0 0 23
                         Session.three_clients) eq_refl)).
Defined.

(** ** Pointer *)

(** X11.  A MotionNotify on a registered client while no drag-start position
    has been recorded (no ButtonPress on a registered client handled yet)
    raises AttributeError, whatever the button bits, in the handler and
    through the dispatcher with nothing else queued. *)
Theorem motion_before_any_press_raises
    (w : Window) (x_root y_root state : Z) (self : WindowManager) :
  Contains w self = true →
  drag_start_pos self = None →
  OnMotionNotify (X.MotionNotify w x_root y_root state) self
  = Raise AttributeError
  ∧ dispatch (X.MotionNotify w x_root y_root state)
      (with_display (X.with_pending [] (display self)) self)
    = Raise AttributeError.
Proof.
  intros Hc Hd.
  assert (∀ s, Contains w s = true → drag_start_pos s = None →
            OnMotionNotify (X.MotionNotify w x_root y_root state) s
            = Raise AttributeError) as H.
  { intros s Hcs Hds. apply Contains_true in Hcs as Hget.
    destruct Hget as [frame Hget].
    unfold OnMotionNotify, subscript. simpl. by rewrite Hcs, Hget, Hds. }
  split; [by apply H|]. unfold dispatch. simpl. by apply H.
Qed.

(** In the session: a motion on the framed editor before any press. *)
Lemma motion_before_press_session :
  OnMotionNotify (X.MotionNotify Session.editor 130 105 264)
    Session.three_clients = Raise AttributeError.
Proof.
  assert (Contains Session.editor Session.three_clients = true) as Hc
    by (by vm_compute).
  assert (drag_start_pos Session.three_clients = None) as Hd
    by (by vm_compute).
  exact (proj1 (motion_before_any_press_raises Session.editor 130 105 264
                  Session.three_clients Hc Hd)).
Defined.

Lemma OnMotionNotify_keeps e self self' :
  OnMotionNotify e self = Ok self' →
  clients self' = clients self
  ∧ drag_start_pos self' = drag_start_pos self
  ∧ drag_start_frame_pos self' = drag_start_frame_pos self
  ∧ drag_start_frame_size self' = drag_start_frame_size self.
Proof.
  unfold OnMotionNotify, subscript, getattr.
  intros H. handler_cases H; done.
Qed.

Lemma OnMotionNotify_move w frame x_root y_root state start pos self :
  Dict.get w (clients self) = Some frame →
  drag_start_pos self = Some start →
  drag_start_frame_pos self = Some pos →
  Z.land state X.Button1Mask ≠ 0%Z →
  OnMotionNotify (X.MotionNotify w x_root y_root state) self
  = Ok (request (X.Configure frame
                   (move_to (pos.1 + (x_root - start.1))
                            (pos.2 + (y_root - start.2)))) self).
Proof.
  intros Hget Hstart Hpos Hb1. unfold OnMotionNotify, subscript. simpl.
  rewrite (Contains_of_get _ _ _ Hget), Hget, Hstart. simpl.
  rewrite truthy_true by done. by rewrite Hpos.
Qed.

(** X12.  Moves do not add up: after two MotionNotify events with the
    Button1 bit on a registered client, the frame is at the drag-start frame
    position plus the second event's offset from the drag-start pointer
    position, the windows are as after the second event alone, and the
    drag-start attributes are unchanged. *)
Theorem motions_are_measured_from_the_drag_start
    (w frame : Window) (x1 y1 state1 x2 y2 state2 : Z)
    (start pos : Z * Z) (fa : X.Win) (self : WindowManager) :
  Dict.get w (clients self) = Some frame →
  drag_start_pos self = Some start →
  drag_start_frame_pos self = Some pos →
  X.windows (display self) !! frame = Some fa →
  Z.land state1 X.Button1Mask ≠ 0%Z →
  Z.land state2 X.Button1Mask ≠ 0%Z →
  ∃ first second alone : WindowManager,
    OnMotionNotify (X.MotionNotify w x1 y1 state1) self = Ok first
    ∧ OnMotionNotify (X.MotionNotify w x2 y2 state2) first = Ok second
    ∧ OnMotionNotify (X.MotionNotify w x2 y2 state2) self = Ok alone
    ∧ geometry frame second
      = Some ((pos.1 + (x2 - start.1))%Z, (pos.2 + (y2 - start.2))%Z,
              X.win_width fa, X.win_height fa)
    ∧ X.windows (display second) = X.windows (display alone)
    ∧ drag_start_pos second = Some start
    ∧ drag_start_frame_pos second = Some pos.
Proof.
  intros Hget Hstart Hpos Hfa Hb1 Hb2.
  pose proof (OnMotionNotify_move w frame x1 y1 state1 start pos self
                Hget Hstart Hpos Hb1) as H1.
  pose proof (OnMotionNotify_move w frame x2 y2 state2 start pos self
                Hget Hstart Hpos Hb2) as H2.
  set (first := request (X.Configure frame
                  (move_to (pos.1 + (x1 - start.1))
                           (pos.2 + (y1 - start.2)))) self) in *.
  pose proof (OnMotionNotify_move w frame x2 y2 state2 start pos first
                Hget Hstart Hpos Hb2) as H12.
  eexists _, _, _. split; [exact H1|]. split; [exact H12|]. split; [exact H2|].
  split.
  { unfold geometry. simpl. rewrite !lookup_alter_eq, Hfa. done. }
  split; [|done].
  simpl. apply map_eq. intros k. destruct (decide (k = frame)) as [->|Hk].
  - rewrite !lookup_alter_eq. by destruct (X.windows (display self) !! frame).
  - by rewrite !lookup_alter_ne.
Qed.

(** In the session: after the press at (100, 100) with the frame at
    (10, 10), a motion to (130, 105) and then one to (90, 100) leave the
    frame at (0, 10), 100 by 50. *)
Lemma two_motions_session :
  ∃ first second,
    OnMotionNotify (X.MotionNotify Session.editor 130 105 264) Session.pressed
      = Ok first
    ∧ OnMotionNotify (X.MotionNotify Session.editor 90 100 264) first
      = Ok second
    ∧ geometry 6%positive second = Some (0, 10, 100, 50)%Z.
Proof.
  destruct (X.windows (display Session.pressed) !! 6%positive) as [fa|] eqn:Hfa;
    [|by vm_compute in Hfa].
  destruct (motions_are_measured_from_the_drag_start
              Session.editor 6%positive 130 105 264 90 100 264
              (100, 100)%Z (10, 10)%Z fa Session.pressed
              eq_refl eq_refl eq_refl Hfa)
    as (first & second & _ & H1 & H2 & _ & Hg & _); [done..|].
  exists first, second. split; [exact H1|]. split; [exact H2|].
  rewrite Hg. vm_compute in Hfa. by injection Hfa as <-.
Defined.

Lemma configure_raise_keeps a : X.configure_win raise_to_top a = a.
Proof. by destruct a. Qed.

Lemma alter_raise_keeps (ws : gmap Window X.Win) k :
  alter (X.configure_win raise_to_top) k ws = ws.
Proof.
  apply map_eq. intros j. destruct (decide (k = j)) as [->|Hne].
  - rewrite lookup_alter_eq. destruct (ws !! j); simpl; [|done].
    by rewrite configure_raise_keeps.
  - by rewrite lookup_alter_ne.
Qed.

(** X13.  A ButtonPress on a registered client issues one request, raising
    its frame, and changes no window; a MotionNotify with the Button1 bit
    at the very position of the press then leaves every window as it was
    before the press. *)
Theorem press_and_motion_on_the_spot_keep_the_frame_in_place
    (w frame : Window) (x_root y_root state button state' : Z) (fa : X.Win)
    (self : WindowManager) :
  Dict.get w (clients self) = Some frame →
  X.windows (display self) !! frame = Some fa →
  Z.land state' X.Button1Mask ≠ 0%Z →
  ∃ pressed moved : WindowManager,
    OnButtonPress (X.ButtonPress w x_root y_root state button) self = Ok pressed
    ∧ X.log (display pressed)
      = X.log (display self) ++ [X.Configure frame raise_to_top]
    ∧ X.windows (display pressed) = X.windows (display self)
    ∧ OnMotionNotify (X.MotionNotify w x_root y_root state') pressed = Ok moved
    ∧ X.windows (display moved) = X.windows (display self).
Proof.
  intros Hget Hfa Hb1.
  set (pressed := request (X.Configure frame raise_to_top)
         (with_drag_start_frame_size (X.win_width fa, X.win_height fa)
            (with_drag_start_frame_pos (X.win_x fa, X.win_y fa)
               (with_drag_start_pos (x_root, y_root) self)))).
  assert (Hp : OnButtonPress (X.ButtonPress w x_root y_root state button) self
               = Ok pressed).
  { unfold OnButtonPress, subscript. simpl.
    rewrite (Contains_of_get _ _ _ Hget), Hget. simpl.
    unfold X.get_geometry. simpl. by rewrite Hfa. }
  assert (Hws : X.windows (display pressed) = X.windows (display self))
    by apply alter_raise_keeps.
  pose proof (OnMotionNotify_move w frame x_root y_root state'
                (x_root, y_root) (X.win_x fa, X.win_y fa) pressed
                Hget eq_refl eq_refl Hb1) as Hm.
  eexists _, _. split; [exact Hp|]. split; [done|]. split; [exact Hws|].
  split; [exact Hm|].
  simpl. rewrite alter_raise_keeps. apply map_eq. intros k.
  destruct (decide (k = frame)) as [->|Hk].
  - rewrite lookup_alter_eq, Hfa. simpl. f_equal.
    destruct fa. unfold X.configure_win. simpl. f_equal; lia.
  - by rewrite lookup_alter_ne.
Qed.

(** In the session: a press on the editor and a motion at the same spot. *)
Lemma press_on_the_spot_session :
  ∃ pressed moved,
    OnButtonPress (X.ButtonPress Session.editor 100 100 8 1)
      Session.three_clients = Ok pressed
    ∧ OnMotionNotify (X.MotionNotify Session.editor 100 100 264) pressed
      = Ok moved
    ∧ X.windows (display moved) = X.windows (display Session.three_clients).
Proof.
  destruct (X.windows (display Session.three_clients) !! 6%positive)
    as [fa|] eqn:Hfa; [|by vm_compute in Hfa].
  destruct (press_and_motion_on_the_spot_keep_the_frame_in_place
              Session.editor 6%positive 100 100 8 1 264 fa
              Session.three_clients eq_refl Hfa)
    as (pressed & moved & Hp & _ & _ & Hm & Hws); [done|].
  exists pressed, moved. split; [exact Hp|]. split; [exact Hm|exact Hws].
Defined.

(** ** The dispatcher *)

(** X14.  The dispatcher changes the registry only for MapRequest and
    UnmapNotify events, and changes nothing at all for events that are
    neither of these nor ConfigureRequest, ButtonPress, MotionNotify or
    KeyPress. *)
Theorem registry_changes_only_on_map_request_and_unmap_notify :
  (∀ (e : X.Event) (self self' : WindowManager),
      X.type e ≠ X.Code.MapRequest →
      X.type e ≠ X.Code.UnmapNotify →
      dispatch e self = Ok self' →
      clients self' = clients self)
  ∧ (∀ (e : X.Event) (self : WindowManager),
      X.type e ≠ X.Code.MapRequest →
      X.type e ≠ X.Code.UnmapNotify →
      X.type e ≠ X.Code.ConfigureRequest →
      X.type e ≠ X.Code.ButtonPress →
      X.type e ≠ X.Code.MotionNotify →
      X.type e ≠ X.Code.KeyPress →
      dispatch e self = Ok self).
Proof.
  split.
  - intros e self self' Hmap Hunmap. unfold dispatch.
    apply Z.eqb_neq in Hmap, Hunmap. rewrite Hmap, Hunmap.
    repeat case_match; try (by intros [= <-]).
    + apply OnConfigureRequest_clients.
    + apply OnButtonPress_clients.
    + intros Hd. simpl in Hd.
      destruct (skip_pending _ _) as [[e' q]| |]; simpl in Hd; [|done..].
      by rewrite (OnMotionNotify_clients _ _ _ Hd).
    + apply OnKeyPress_clients.
  - intros e self H1 H2 H3 H4 H5 H6. unfold dispatch.
    apply Z.eqb_neq in H1, H2, H3, H4, H5, H6.
    rewrite H1, H2, H3, H4, H5, H6. by repeat case_match.
Qed.

Lemma dispatch_clients e self self' :
  dispatch e self = Ok self' →
  clients self' = clients self
  ∨ ∃ w, clients self' = Dict.del w (clients self).
Proof.
  unfold dispatch. intros H.
  repeat case_match; try (injection H as <-; by left).
  - revert H. unfold OnUnmapNotify, getattr.
    intros H. handler_cases H; try (by left).
    right. eexists. by eapply Unframe_clients.
  - revert H. unfold OnMapRequest, getattr.
    intros H. handler_cases H; try (by left).
    left.
    match goal with
    | HF : Frame _ _ _ = Ok _ |- _ =>
        by destruct (Frame_Ok_inv _ _ _ _ HF) as [-> _]
    end.
  - left. exact (OnConfigureRequest_clients _ _ _ H).
  - left. exact (OnButtonPress_clients _ _ _ H).
  - left. simpl in H.
    destruct (skip_pending _ _) as [[e' q]| |]; simpl in H; [|done..].
    by rewrite (OnMotionNotify_clients _ _ _ H).
  - left. exact (OnKeyPress_clients _ _ _ H).
Qed.

(** X7.  The registry never grows: after a turn of the dispatcher, and after
    any number of turns of the main loop, the registry is the one before
    with some entries taken out, the others in their order.  A manager
    constructed with an empty registry, as [__init__] does, still has an
    empty registry after the initialization of [Run] and any number of
    turns. *)
Theorem registry_never_grows :
  (∀ (e : X.Event) (self self' : WindowManager),
      dispatch e self = Ok self' →
      clients self' `sublist_of` clients self)
  ∧ (∀ (n : nat) (self self' : WindowManager),
      Run_loop n self = Ok self' →
      clients self' `sublist_of` clients self)
  ∧ (∀ (n : nat) (b : bool) (self started self' : WindowManager),
      clients self = [] →
      Run_initialization self = Ok (b, started) →
      Run_loop n started = Ok self' →
      clients self' = []).
Proof.
  assert (∀ e self self', dispatch e self = Ok self' →
            clients self' `sublist_of` clients self) as Hd.
  { intros e self self' [->|[w ->]]%dispatch_clients; [done|].
    apply sublist_filter. }
  assert (∀ n self self', Run_loop n self = Ok self' →
            clients self' `sublist_of` clients self) as Hl.
  { induction n as [|n IH]; intros self self'; simpl.
    - by intros [= <-].
    - unfold Run_iteration, X.next_event.
      destruct (X.pending (display self)) as [|e q]; simpl; [done|].
      destruct (dispatch e _) as [s1| |] eqn:H1; simpl; [|done..].
      intros Hrest. etrans; [by apply IH|]. by apply Hd in H1. }
  split; [exact Hd|]. split; [exact Hl|].
  intros n b self started self' Hempty Hinit Hloop.
  destruct (Run_initialization_inv _ _ _ Hinit) as (_ & _ & _ & _ & -> & _).
  apply Hl in Hloop. simpl in Hloop. rewrite Hempty in Hloop.
  by apply sublist_nil_r.
Qed.

(** In the session: an UnmapNotify for the editor, reported from its frame,
    takes the editor out and leaves the terminal and the clock. *)
Lemma registry_shrinks_session :
  ∃ self',
    Run_loop 1 (Session.holding
                  [(Session.editor, 6%positive); (Session.terminal, 7%positive);
                   (Session.clock, 8%positive)]
                  [X.UnmapNotify 6%positive Session.editor]) = Ok self'
    ∧ clients self' `sublist_of` clients Session.three_clients
    ∧ Dict.keys (clients self') = [Session.terminal; Session.clock].
Proof.
  eexists. split; [vm_compute; reflexivity|]. split.
  - refine (proj1 (proj2 registry_never_grows) 1%nat
              (Session.holding
                 [(Session.editor, 6%positive); (Session.terminal, 7%positive);
                  (Session.clock, 8%positive)]
                 [X.UnmapNotify 6%positive Session.editor]) _ _).
    vm_compute. reflexivity.
  - reflexivity.
Defined.

(** X15.  A MapRequest for a client that is already in the registry leads
    to one request, mapping the client; so after a MapRequest has been
    handled, handling it again only maps the client again. *)
Theorem map_request_for_a_framed_client_only_maps
    (p w : Window) (self : WindowManager) :
  (Contains w self = true →
     OnMapRequest (X.MapRequest p w) self = Ok (request (X.Map w) self))
  ∧ (∀ first, OnMapRequest (X.MapRequest p w) self = Ok first →
       OnMapRequest (X.MapRequest p w) first = Ok (request (X.Map w) first)
       ∧ clients (request (X.Map w) first) = clients first).
Proof.
  assert (∀ s, Contains w s = true →
            OnMapRequest (X.MapRequest p w) s = Ok (request (X.Map w) s)) as H.
  { intros s Hc. unfold OnMapRequest. simpl. by rewrite Frame_contained. }
  split; [apply H|].
  intros first Hfirst. split; [|done]. apply H.
  revert Hfirst. unfold OnMapRequest. simpl.
  destruct (Frame w false self) as [s1| |] eqn:H1; simpl; [|done..].
  intros [= <-]. change (Contains w (request (X.Map w) s1)) with (Contains w s1).
  by destruct (Frame_Ok_inv _ _ _ _ H1) as [-> [?|[? _]]].
Qed.

(** ** Formatting *)

Lemma land_low_bits (v m : Z) :
  Z.land 127 m = m → Z.land (v mod 128) m = Z.land v m.
Proof.
  intros Hm. change 128%Z with (2 ^ 7)%Z.
  rewrite <- (Z.land_ones v 7) by lia. change (Z.ones 7) with 127%Z.
  by rewrite <- Z.land_assoc, Hm.
Qed.

Lemma value_mask_names_low_bits v :
  Util.value_mask_names (v mod 128) = Util.value_mask_names v.
Proof.
  unfold Util.value_mask_names. by rewrite !land_low_bits.
Qed.

Lemma prints_apart_below_128 :
  forallb (λ n1, forallb (prints_apart n1) (seq 0 128)) (seq 0 128) = true.
Proof. by vm_compute. Qed.

Lemma value_mask_string_inj_low (r1 r2 : Z) :
  (0 ≤ r1 < 128)%Z → (0 ≤ r2 < 128)%Z →
  Util.XConfigureWindowValueMaskToString r1
  = Util.XConfigureWindowValueMaskToString r2 →
  r1 = r2.
Proof.
  intros H1 H2 Heq.
  pose proof prints_apart_below_128 as Hall.
  rewrite forallb_forall in Hall.
  specialize (Hall (Z.to_nat r1)). rewrite forallb_forall in Hall.
  assert (In (Z.to_nat r1) (seq 0 128)) as Hi1 by (apply in_seq; lia).
  assert (In (Z.to_nat r2) (seq 0 128)) as Hi2 by (apply in_seq; lia).
  specialize (Hall Hi1 (Z.to_nat r2) Hi2). unfold prints_apart in Hall.
  rewrite !Z2Nat.id in Hall by lia.
  rewrite bool_decide_eq_true_2 in Hall by done. simpl in Hall.
  apply bool_decide_eq_true in Hall. lia.
Qed.

(** X16.  Two value masks print as the same string exactly when they agree
    on their seven low bits. *)
Theorem value_mask_string_reads_the_low_seven_bits (v1 v2 : Z) :
  Util.XConfigureWindowValueMaskToString v1
  = Util.XConfigureWindowValueMaskToString v2
  ↔ (v1 mod 128 = v2 mod 128)%Z.
Proof.
  unfold Util.XConfigureWindowValueMaskToString at 1 2.
  rewrite <- (value_mask_names_low_bits v1), <- (value_mask_names_low_bits v2).
  split.
  - apply value_mask_string_inj_low; by apply Z.mod_pos_bound.
  - by intros ->.
Qed.

Lemma request_names_length : length Util.X_REQUEST_CODE_NAMES = 121%nat.
Proof. by vm_compute. Qed.

Lemma request_names_distinct : NoDup Util.X_REQUEST_CODE_NAMES.
Proof. apply (bool_decide_unpack _). by vm_compute. Qed.

(** X17.  [XRequestCodeToString] returns a name exactly for the codes from
    -121 to 120 and fails with IndexError otherwise; a code below zero gets
    the name of that code plus 121; two different codes from 0 to 120 get
    different names. *)
Theorem request_code_names_are_bounded_and_distinct :
  (∀ c : Z, is_Some (Util.XRequestCodeToString c) ↔ (-121 ≤ c ≤ 120)%Z)
  ∧ (∀ c : Z, (-121 ≤ c < 0)%Z →
       Util.XRequestCodeToString c = Util.XRequestCodeToString (c + 121))
  ∧ (∀ c1 c2 : Z, (0 ≤ c1 ≤ 120)%Z → (0 ≤ c2 ≤ 120)%Z →
       Util.XRequestCodeToString c1 = Util.XRequestCodeToString c2 →
       c1 = c2).
Proof.
  unfold Util.XRequestCodeToString, Util.list_subscript.
  rewrite request_names_length.
  change (- Z.of_nat 121)%Z with (-121)%Z. change (Z.of_nat 121) with 121%Z.
  split; [|split].
  - intros c. destruct (0 <=? c)%Z eqn:H0.
    + apply Z.leb_le in H0. rewrite lookup_lt_is_Some, request_names_length. lia.
    + apply Z.leb_gt in H0. destruct (- 121 <=? c)%Z eqn:H1.
      * apply Z.leb_le in H1.
        rewrite lookup_lt_is_Some, request_names_length. lia.
      * apply Z.leb_gt in H1. split; [by intros [? ?]|lia].
  - intros c Hc.
    assert ((0 <=? c)%Z = false) as -> by (apply Z.leb_gt; lia).
    assert ((- 121 <=? c)%Z = true) as -> by (apply Z.leb_le; lia).
    assert ((0 <=? c + 121)%Z = true) as -> by (apply Z.leb_le; lia).
    f_equal. lia.
  - intros c1 c2 H1 H2.
    assert ((0 <=? c1)%Z = true) as -> by (apply Z.leb_le; lia).
    assert ((0 <=? c2)%Z = true) as -> by (apply Z.leb_le; lia).
    destruct (Util.X_REQUEST_CODE_NAMES !! Z.to_nat c1) as [name|] eqn:Hn.
    + intros Heq. symmetry in Heq.
      pose proof (NoDup_lookup _ _ _ _ request_names_distinct Hn Heq). lia.
    + apply lookup_ge_None in Hn. rewrite request_names_length in Hn. lia.
Qed.
